(** * News-Archive: a shallow embedding of [main.py]

    The archiver fetches an RSS feed, parses it, keeps today's items,
    stores the new ones in a one-table sqlite database keyed by [link],
    reads the day back and renders a static HTML page.

    Strings are byte strings ([string] of the Standard Library); integers
    are [Z].  What the program takes from Python's standard library
    ([str.lower], [str.strip], [html.escape], [datetime.isoformat], ...)
    is modelled next to the function that uses it; what it takes from the
    outside world (the feed body, the clock, the XML and RFC-2822 parsers)
    is a variable of the section or a field of the run's environment. *)

From Stdlib Require Import String Ascii List ZArith Bool Lia Arith.
From Stdlib Require Import Permutation Sorted.
Import ListNotations.

Local Open Scope list_scope.
Local Open Scope string_scope.

Set Implicit Arguments.
Set Warnings "-register-all".

(* ------------------------------------------------------------------ *)
(** ** Strings as Python uses them here *)

Module Str.

(** [c.lower()] on one byte: [A]..[Z] move to [a]..[z].  [str.lower()] is
    this on ASCII text; letters outside ASCII are left as they are here. *)
Definition lower_ascii (c : ascii) : ascii :=
  let n := nat_of_ascii c in
  if ((65 <=? n) && (n <=? 90))%nat then ascii_of_nat (n + 32) else c.

(** [s.lower()]. *)
Fixpoint lower (s : string) : string :=
  match s with
  | EmptyString => EmptyString
  | String c s' => String (lower_ascii c) (lower s')
  end.

(** [s.startswith(p)]. *)
Fixpoint startswith (s p : string) : bool :=
  match p, s with
  | EmptyString, _ => true
  | String _ _, EmptyString => false
  | String a p', String b s' => Ascii.eqb a b && startswith s' p'
  end.

(** [s.endswith(suf)]: some tail of [s] is [suf]. *)
Fixpoint endswith (s suf : string) : bool :=
  if String.eqb s suf then true
  else match s with
       | EmptyString => false
       | String _ s' => endswith s' suf
       end.

(** The white space of [str.strip()], that is the characters for which
    [str.isspace()] holds, in UTF-8.  One byte: U+0009 to U+000D, U+001C
    to U+0020. *)
Definition isspace (c : ascii) : bool :=
  let n := nat_of_ascii c in
  (((9 <=? n) && (n <=? 13)) || ((28 <=? n) && (n <=? 32)))%nat.

(** Two bytes: U+0085 and U+00A0. *)
Definition isspace2 (a b : ascii) : bool :=
  let na := nat_of_ascii a in
  let nb := nat_of_ascii b in
  ((na =? 194) && ((nb =? 133) || (nb =? 160)))%nat.

(** Three bytes: U+1680, U+2000 to U+200A, U+2028, U+2029, U+202F, U+205F
    and U+3000. *)
Definition isspace3 (a b c : ascii) : bool :=
  let na := nat_of_ascii a in
  let nb := nat_of_ascii b in
  let nc := nat_of_ascii c in
  (((na =? 225) && (nb =? 154) && (nc =? 128))
   || ((na =? 226) && (nb =? 128)
       && (((128 <=? nc) && (nc <=? 138)) || (nc =? 168) || (nc =? 169)
           || (nc =? 175)))
   || ((na =? 226) && (nb =? 129) && (nc =? 159))
   || ((na =? 227) && (nb =? 128) && (nc =? 128)))%nat.

(** [s.lstrip()]: the white space characters at the head are dropped. *)
Fixpoint lstrip (s : string) : string :=
  match s with
  | EmptyString => EmptyString
  | String a r1 =>
      if isspace a then lstrip r1
      else
        match r1 with
        | EmptyString => s
        | String b r2 =>
            if isspace2 a b then lstrip r2
            else
              match r2 with
              | EmptyString => s
              | String c r3 => if isspace3 a b c then lstrip r3 else s
              end
        end
  end.

(** The text is white space only. *)
Fixpoint all_space (s : string) : bool :=
  match s with
  | EmptyString => true
  | String a r1 =>
      if isspace a then all_space r1
      else
        match r1 with
        | EmptyString => false
        | String b r2 =>
            if isspace2 a b then all_space r2
            else
              match r2 with
              | EmptyString => false
              | String c r3 => isspace3 a b c && all_space r3
              end
        end
  end.

(** [s.rstrip()]: the text is cut where only white space is left. *)
Fixpoint rstrip (s : string) : string :=
  match s with
  | EmptyString => EmptyString
  | String c s' => if all_space s then EmptyString else String c (rstrip s')
  end.

(** [s.strip()]. *)
Definition strip (s : string) : string := rstrip (lstrip s).

(** Truthiness of a [str]: non-empty. *)
Definition truthy (s : string) : bool :=
  match s with EmptyString => false | _ => true end.

(** [x in xs] for a list of strings. *)
Definition mem (x : string) (xs : list string) : bool :=
  existsb (String.eqb x) xs.

(** [s[n:]]. *)
Fixpoint drop (n : nat) (s : string) : string :=
  match n, s with
  | O, _ => s
  | S _, EmptyString => EmptyString
  | S k, String _ s' => drop k s'
  end.

(** [s.replace(old, new)] for a non-empty [old]: leftmost matches, not
    overlapping.  [skip] counts the characters of a match still to be
    passed over. *)
Fixpoint replace_from (old new s : string) (skip : nat) : string :=
  match s with
  | EmptyString => EmptyString
  | String c s' =>
      match skip with
      | S k => replace_from old new s' k
      | O =>
          if startswith s old
          then new ++ replace_from old new s' (String.length old - 1)
          else String c (replace_from old new s' 0)
      end
  end.

Definition replace (s old new : string) : string :=
  replace_from old new s 0.

(** ["sep".join(parts)]. *)
Fixpoint join (sep : string) (parts : list string) : string :=
  match parts with
  | [] => EmptyString
  | [p] => p
  | p :: rest => p ++ sep ++ join sep rest
  end.

(** [needle in s]. *)
Fixpoint contains (s needle : string) : bool :=
  if startswith s needle then true
  else match s with
       | EmptyString => false
       | String _ s' => contains s' needle
       end.

End Str.

(* ------------------------------------------------------------------ *)
(** ** Dates and times ([datetime.date], [datetime.datetime]) *)

Record date := Date { d_year : Z; d_month : Z; d_day : Z }.

(** A [datetime]: the fields of the class; [dt_offset] is [utcoffset()] in
    microseconds (a [timedelta]), [None] for a naive value.  Python keeps the year in 1..9999,
    the month in 1..12 and so on; the digits below are those ranges'. *)
Record datetime := DateTime {
  dt_year : Z; dt_month : Z; dt_day : Z;
  dt_hour : Z; dt_minute : Z; dt_second : Z; dt_microsecond : Z;
  dt_offset : option Z
}.

(** [dt.date()]: the calendar date in the zone the value carries. *)
Definition dt_date (dt : datetime) : date :=
  Date (dt_year dt) (dt_month dt) (dt_day dt).

Definition date_eqb (a b : date) : bool :=
  (d_year a =? d_year b)%Z && (d_month a =? d_month b)%Z
  && (d_day a =? d_day b)%Z.

Module Fmt.

(** The decimal digit of [n mod 10]. *)
Definition digit (n : Z) : ascii :=
  ascii_of_nat (48 + Z.to_nat (n mod 10)).

(** ["%02d"], ["%04d"], ["%06d"] on a value that fits the width. *)
Definition pad2 (n : Z) : string :=
  String (digit (n / 10)) (String (digit n) EmptyString).
Definition pad4 (n : Z) : string := pad2 (n / 100) ++ pad2 n.
Definition pad6 (n : Z) : string := pad2 (n / 10000) ++ pad4 n.

(** ["%Y"] of [strftime] as the C library writes it here: the year in
    decimal without padding, so three digits for the year 999. *)
Definition year_text (y : Z) : string :=
  if (y <? 10)%Z then String (digit y) EmptyString
  else if (y <? 100)%Z then pad2 y
  else if (y <? 1000)%Z then String (digit (y / 100)) (pad2 y)
  else pad4 y.

End Fmt.

(** [date.isoformat()]: [YYYY-MM-DD]. *)
Definition date_isoformat (d : date) : string :=
  Fmt.pad4 (d_year d) ++ "-" ++ Fmt.pad2 (d_month d) ++ "-" ++ Fmt.pad2 (d_day d).

(** [date.strftime('%Y%m%d')]. *)
Definition date_compact (d : date) : string :=
  Fmt.year_text (d_year d) ++ Fmt.pad2 (d_month d) ++ Fmt.pad2 (d_day d).

(** The time part of [isoformat]: seconds, and microseconds when not zero. *)
Definition format_time (dt : datetime) : string :=
  Fmt.pad2 (dt_hour dt) ++ ":" ++ Fmt.pad2 (dt_minute dt) ++ ":"
  ++ Fmt.pad2 (dt_second dt)
  ++ (if (dt_microsecond dt =? 0)%Z then "" else "." ++ Fmt.pad6 (dt_microsecond dt)).

(** The offset part of [isoformat] ([_format_offset]): [+HH:MM], then [:SS]
    when the seconds or microseconds are not zero, then [.ffffff] when the
    microseconds are not zero. *)
Definition format_offset (off : option Z) : string :=
  match off with
  | None => ""
  | Some o =>
      let sign := if (o <? 0)%Z then "-" else "+" in
      let a := Z.abs o in
      let hh := (a / 3600000000)%Z in
      let r := (a mod 3600000000)%Z in
      let mm := (r / 60000000)%Z in
      let ss := (r mod 60000000)%Z in
      sign ++ Fmt.pad2 hh ++ ":" ++ Fmt.pad2 mm
      ++ (if (ss =? 0)%Z then ""
          else ":" ++ Fmt.pad2 (ss / 1000000)
               ++ (if (ss mod 1000000 =? 0)%Z then ""
                   else "." ++ Fmt.pad6 (ss mod 1000000)))
  end.

(** [datetime.isoformat(sep)]; [sep] is ['T'] unless given. *)
Definition isoformat_sep (sep : string) (dt : datetime) : string :=
  date_isoformat (dt_date dt) ++ sep ++ format_time dt
  ++ format_offset (dt_offset dt).

Definition isoformat (dt : datetime) : string := isoformat_sep "T" dt.

(** [dt.strftime("%Y-%m-%d %H:%M")]. *)
Definition strftime_ymd_hm (dt : datetime) : string :=
  Fmt.year_text (dt_year dt) ++ "-" ++ Fmt.pad2 (dt_month dt) ++ "-"
  ++ Fmt.pad2 (dt_day dt) ++ " " ++ Fmt.pad2 (dt_hour dt) ++ ":"
  ++ Fmt.pad2 (dt_minute dt).

(** [datetime.now().isoformat(timespec='seconds')] and
    [.isoformat(sep=' ', timespec='seconds')]: the microseconds are not
    written. *)
Definition isoformat_seconds (sep : string) (dt : datetime) : string :=
  date_isoformat (dt_date dt) ++ sep
  ++ Fmt.pad2 (dt_hour dt) ++ ":" ++ Fmt.pad2 (dt_minute dt) ++ ":"
  ++ Fmt.pad2 (dt_second dt)
  ++ format_offset (dt_offset dt).

(* ------------------------------------------------------------------ *)
(** ** [datetime.fromisoformat]

    The reader of what [isoformat] writes, as Python 3.7 to 3.10 have it:
    [YYYY-MM-DD[*HH[:MM[:SS[.fff[fff]]]][+HH:MM[:SS[.ffffff]]]]], followed by
    the range checks of the [datetime] and [timezone] constructors.  A
    raised [ValueError] is [None].  Later versions read more forms (a [Z]
    suffix, the basic format, any length of fraction) and agree with this
    one on every text that [isoformat] writes; what is proved of the
    renderer for any text is therefore stated over [display_timestamp_with],
    for every reader. *)

Module Iso.

Definition digit_val (c : ascii) : option Z :=
  let n := nat_of_ascii c in
  if ((48 <=? n) && (n <=? 57))%nat then Some (Z.of_nat (n - 48)) else None.

(** [int(s)] for a string of decimal digits. *)
Fixpoint digits_from (acc : Z) (s : string) : option Z :=
  match s with
  | EmptyString => Some acc
  | String c s' =>
      match digit_val c with
      | Some d => digits_from (10 * acc + d) s'
      | None => None
      end
  end.

Definition int_of (s : string) : option Z :=
  match s with
  | EmptyString => None
  | _ => digits_from 0 s
  end.

(** Two digits at the head of [s], and what follows them. *)
Definition parse2 (s : string) : option (Z * string) :=
  match s with
  | String a (String b rest) =>
      match int_of (String a (String b EmptyString)) with
      | Some n => Some (n, rest)
      | None => None
      end
  | _ => None
  end.

(** [s] behind a leading [c]. *)
Definition expect (c : ascii) (s : string) : option string :=
  match s with
  | String d rest => if Ascii.eqb c d then Some rest else None
  | EmptyString => None
  end.

(** [_parse_isoformat_date] on [s[0:10]]. *)
Definition parse_isoformat_date (d : string) : option (Z * Z * Z) :=
  match int_of (substring 0 4 d), expect "-" (Str.drop 4 d) with
  | Some y, Some r1 =>
      match parse2 r1 with
      | Some (m, r2) =>
          match expect "-" r2 with
          | Some r3 =>
              match parse2 r3 with
              | Some (dd, EmptyString) => Some (y, m, dd)
              | _ => None
              end
          | None => None
          end
      | None => None
      end
  | _, _ => None
  end.

(** The microsecond tail of [_parse_hh_mm_ss_ff]: nothing, or a dot and
    three or six digits. *)
Definition parse_ff (r : string) : option Z :=
  match r with
  | EmptyString => Some 0%Z
  | String c f =>
      if Ascii.eqb c "." then
        match String.length f, int_of f with
        | 3%nat, Some n => Some (n * 1000)%Z
        | 6%nat, Some n => Some n
        | _, _ => None
        end
      else None
  end.

(** [_parse_hh_mm_ss_ff]: [HH[:MM[:SS[.fff[fff]]]]]. *)
Definition parse_hh_mm_ss_ff (t : string) : option (Z * Z * Z * Z) :=
  match parse2 t with
  | None => None
  | Some (h, EmptyString) => Some (h, 0, 0, 0)%Z
  | Some (h, r1) =>
      match expect ":" r1 with
      | None => None
      | Some r1' =>
          match parse2 r1' with
          | None => None
          | Some (m, EmptyString) => Some (h, m, 0, 0)%Z
          | Some (m, r2) =>
              match expect ":" r2 with
              | None => None
              | Some r2' =>
                  match parse2 r2' with
                  | None => None
                  | Some (s, r3) =>
                      match parse_ff r3 with
                      | Some us => Some (h, m, s, us)
                      | None => None
                      end
                  end
              end
          end
      end
  end.

(** The text before the first ['-'] (else the first ['+']), the sign found
    and the text behind it: [tstr.find('-') + 1 or tstr.find('+') + 1]. *)
Fixpoint split_at (c : ascii) (s : string) : option (string * string) :=
  match s with
  | EmptyString => None
  | String d rest =>
      if Ascii.eqb c d then Some (EmptyString, rest)
      else match split_at c rest with
           | Some (a, b) => Some (String d a, b)
           | None => None
           end
  end.

Definition split_tz (t : string) : string * option (bool * string) :=
  match split_at "-" t with
  | Some (a, b) => (a, Some (true, b))
  | None =>
      match split_at "+" t with
      | Some (a, b) => (a, Some (false, b))
      | None => (t, None)
      end
  end.

(** [_parse_isoformat_time]: the time and the offset in microseconds. *)
Definition parse_isoformat_time (t : string)
  : option (Z * Z * Z * Z * option Z) :=
  let '(timestr, tz) := split_tz t in
  match parse_hh_mm_ss_ff timestr with
  | None => None
  | Some (h, m, s, us) =>
      match tz with
      | None => Some (h, m, s, us, None)
      | Some (neg, tzstr) =>
          let n := String.length tzstr in
          if ((n =? 5) || (n =? 8) || (n =? 15))%nat then
            match parse_hh_mm_ss_ff tzstr with
            | Some (th, tm, ts, tus) =>
                let off := (((th * 60 + tm) * 60 + ts) * 1000000 + tus)%Z in
                Some (h, m, s, us, Some (if neg then (- off)%Z else off))
            | None => None
            end
          else None
      end
  end.

Definition is_leap (y : Z) : bool :=
  ((y mod 4 =? 0) && (negb (y mod 100 =? 0) || (y mod 400 =? 0)))%Z.

Definition days_in_month (y m : Z) : Z :=
  if (m =? 2)%Z then (if is_leap y then 29 else 28)%Z
  else if ((m =? 4) || (m =? 6) || (m =? 9) || (m =? 11))%Z then 30%Z
  else 31%Z.

Definition in_range (lo x hi : Z) : bool := ((lo <=? x) && (x <=? hi))%Z.

(** The checks of [datetime(...)] and [timezone(...)]. *)
Definition check_fields (dt : datetime) : bool :=
  in_range 1 (dt_year dt) 9999 && in_range 1 (dt_month dt) 12
  && in_range 1 (dt_day dt) (days_in_month (dt_year dt) (dt_month dt))
  && in_range 0 (dt_hour dt) 23 && in_range 0 (dt_minute dt) 59
  && in_range 0 (dt_second dt) 59 && in_range 0 (dt_microsecond dt) 999999
  && match dt_offset dt with
     | None => true
     | Some o => (Z.abs o <? 86400000000)%Z
     end.

Definition fromisoformat (s : string) : option datetime :=
  match parse_isoformat_date (substring 0 10 s) with
  | None => None
  | Some (y, m, d) =>
      let tstr := Str.drop 11 s in
      let time :=
        match tstr with
        | EmptyString => Some (0, 0, 0, 0, None)%Z
        | _ => parse_isoformat_time tstr
        end in
      match time with
      | None => None
      | Some (hh, mi, ss, us, off) =>
          let dt := DateTime y m d hh mi ss us off in
          if check_fields dt then Some dt else None
      end
  end.

End Iso.

(* ------------------------------------------------------------------ *)
(** ** [html.escape] *)

Definition amp : ascii := ascii_of_nat 38.
Definition lt : ascii := ascii_of_nat 60.
Definition gt : ascii := ascii_of_nat 62.
Definition dquote : ascii := ascii_of_nat 34.
Definition squote : ascii := ascii_of_nat 39.

(** What [html.escape(s, quote=True)] writes for one character. *)
Definition escape_char (c : ascii) : string :=
  if Ascii.eqb c amp then "&amp;"
  else if Ascii.eqb c lt then "&lt;"
  else if Ascii.eqb c gt then "&gt;"
  else if Ascii.eqb c dquote then "&quot;"
  else if Ascii.eqb c squote then "&#x27;"
  else String c EmptyString.

(** [html.escape]: [&] first, then [<], [>], the double and the single
    quote; character by character that is [escape_char]. *)
Fixpoint html_escape (s : string) : string :=
  match s with
  | EmptyString => EmptyString
  | String c s' => escape_char c ++ html_escape s'
  end.

(* ------------------------------------------------------------------ *)
(** ** The feed: [xml.etree.ElementTree] elements *)

(** An [ET.Element]: its tag ([{uri}local] when namespaced), its text (or
    [None]) and its children in document order. *)
Inductive Element : Type :=
  Elem (tag : string) (text : option string) (children : list Element).

Definition tag (e : Element) : string :=
  match e with Elem t _ _ => t end.
Definition text (e : Element) : option string :=
  match e with Elem _ x _ => x end.
Definition children (e : Element) : list Element :=
  match e with Elem _ _ cs => cs end.

(** [root.iter()]: the element, then its descendants, in document order. *)
Fixpoint iter (e : Element) : list Element :=
  match e with
  | Elem _ _ cs => e :: flat_map iter cs
  end.

(** What the program asks of Python's library and cannot compute here:
    [html.unescape], [email.utils.parsedate_to_datetime] (which returns a
    [datetime] or raises) and [ET.fromstring] (which returns the root or
    raises [ParseError]). *)
Class PyLib := {
  html_unescape : string -> string;
  parsedate_to_datetime : string -> option datetime;
  ET_fromstring : string -> option Element
}.

(** A parsed feed entry: the dict that [parse_rss] appends. *)
Record Item := MkItem {
  title : string;
  link : string;
  category : string;
  pubdate_raw : string;
  pubdate_iso : option string;
  pubdate_dt : option datetime
}.

Definition _tag_endswith (tag name : string) : bool :=
  Str.endswith (Str.lower tag) (Str.lower name).

(** [child.text or ""]. *)
Definition text_or_empty (x : option string) : string :=
  match x with
  | Some s => s
  | None => ""
  end.

(** The first child whose tag matches gives its text. *)
Fixpoint first_child_text (cs : list Element) (name : string) : string :=
  match cs with
  | [] => ""
  | child :: rest =>
      if _tag_endswith (tag child) name then text_or_empty (text child)
      else first_child_text rest name
  end.

Definition get_child_text (item : Element) (name : string) : string :=
  first_child_text (children item) name.

Section Parser.
Context {lib : PyLib}.

(** The [try] block of [parse_rss]: [(pubdate_iso, pubdate_dt)].  The
    parser returns a value or raises; [isoformat] does not raise. *)
Definition parse_pubdate (pubdate_raw : string)
  : option string * option datetime :=
  if Str.truthy pubdate_raw then
    match parsedate_to_datetime pubdate_raw with
    | Some dt => (Some (isoformat dt), Some dt)
    | None => (None, None)
    end
  else (None, None).

(** The body of the loop of [parse_rss] for one matching element. *)
Definition item_of_element (item : Element) : Item :=
  let title := Str.strip (get_child_text item "title") in
  let link := Str.strip (get_child_text item "link") in
  let category := Str.strip (get_child_text item "category") in
  let pubdate_raw := Str.strip (get_child_text item "pubdate") in
  let '(pubdate_iso, pubdate_dt) := parse_pubdate pubdate_raw in
  MkItem (html_unescape title) link category pubdate_raw pubdate_iso pubdate_dt.

(** The loop of [parse_rss] over [root.iter()]. *)
Definition parse_root (root : Element) : list Item :=
  fold_left
    (fun items item =>
       if _tag_endswith (tag item) "item"
       then (items ++ [item_of_element item])%list
       else items)
    (iter root) [].

(** [parse_rss]: [None] when [ET.fromstring] raises. *)
Definition parse_rss (xml_text : string) : option (list Item) :=
  match ET_fromstring xml_text with
  | Some root => Some (parse_root root)
  | None => None
  end.

End Parser.

(* ------------------------------------------------------------------ *)
(** ** [filter_news] *)

(** The verdict [ok] of the loop body for one item. *)
Definition filter_ok (date_filter : option date)
  (categories : option (list string)) (it : Item) : bool :=
  let ok := true in
  let ok :=
    match date_filter, pubdate_dt it with
    | Some d, Some dt => if negb (date_eqb (dt_date dt) d) then false else ok
    | _, _ => ok
    end in
  let ok :=
    match categories with
    | Some (c :: cs) =>
        if Str.truthy (category it)
        then (if negb (Str.mem (category it) (c :: cs)) then false else ok)
        else ok
    | _ => ok
    end in
  ok.

Definition filter_news (items : list Item) (date_filter : option date)
  (categories : option (list string)) : list Item :=
  fold_left
    (fun out it =>
       if filter_ok date_filter categories it then (out ++ [it])%list else out)
    items [].

(* ------------------------------------------------------------------ *)
(** ** The store: table [news] of the sqlite file *)

(** A row of [news].  [r_link] carries the [UNIQUE] constraint; the
    program binds a [str] to every column but [pubdate_iso], which is
    [NULL] when the item has none. *)
Record Row := MkRow {
  r_id : Z;
  r_link : string;
  r_title : string;
  r_category : string;
  r_pubdate_iso : option string;
  r_pubdate_raw : string;
  r_saved_at : string
}.

(** The table: its rows in insertion order, and the largest id handed out
    so far ([AUTOINCREMENT]). *)
Record Table := MkTable { rows : list Row; last_id : Z }.

(** The database file: [None] until [CREATE TABLE] has run. *)
Definition Database := option Table.

Definition empty_table : Table := MkTable [] 0.

(** [CREATE TABLE IF NOT EXISTS news (...)]: the table the file holds
    afterwards. *)
Definition init_db (db : Database) : Table :=
  match db with
  | Some t => t
  | None => empty_table
  end.

Definition has_link (t : Table) (l : string) : bool :=
  existsb (fun r => String.eqb (r_link r) l) (rows t).

(** [INSERT INTO news (...) VALUES (...)] and [commit]: [None] is the
    [sqlite3.IntegrityError] of the [UNIQUE] constraint on [link]. *)
Definition sql_insert (t : Table) (it : Item) (now : string) : option Table :=
  if has_link t (link it) then None
  else
    let id := (last_id t + 1)%Z in
    Some (MkTable
            (rows t ++ [MkRow id (link it) (title it) (category it)
                          (pubdate_iso it) (pubdate_raw it) now])%list
            id).

(** The loop of [save_new_to_db]; [clock k] is what [datetime.now()] reads
    in the iteration of index [k]. *)
Fixpoint save_loop (clock : nat -> datetime) (k : nat) (items : list Item)
  (t : Table) (added : list Item) : Table * list Item :=
  match items with
  | [] => (t, added)
  | it :: rest =>
      let now := isoformat_seconds "T" (clock k) in
      match sql_insert t it now with
      | Some t' => save_loop clock (S k) rest t' (added ++ [it])%list
      | None => save_loop clock (S k) rest t added
      end
  end.

Definition save_new_to_db (clock : nat -> datetime) (items : list Item)
  (t : Table) : Table * list Item :=
  save_loop clock 0 items t [].

(** sqlite's [LIKE]: [%] is any run of characters, [_] is any one
    character, any other character is itself, ASCII letters without
    regard to case. *)
Definition percent : ascii := ascii_of_nat 37.
Definition underscore : ascii := ascii_of_nat 95.

Fixpoint sql_like (pat s : string) : bool :=
  match pat with
  | EmptyString =>
      match s with EmptyString => true | _ => false end
  | String p pat' =>
      if Ascii.eqb p percent then
        (fix any (s : string) : bool :=
           sql_like pat' s
           || match s with
              | EmptyString => false
              | String _ s' => any s'
              end) s
      else
        match s with
        | EmptyString => false
        | String c s' =>
            (Ascii.eqb p underscore
             || Ascii.eqb (Str.lower_ascii p) (Str.lower_ascii c))
            && sql_like pat' s'
        end
  end.

(** The dict built from a fetched row. *)
Record Rec := MkRec {
  q_title : string;
  q_link : string;
  q_category : string;
  q_pubdate_iso : option string;
  q_pubdate_raw : string
}.

Definition rec_of_row (r : Row) : Rec :=
  MkRec (r_title r) (r_link r) (r_category r) (r_pubdate_iso r) (r_pubdate_raw r).

(** [WHERE pubdate_iso LIKE ?]: [NULL LIKE ...] is not true. *)
Definition where_like (pat : string) (r : Row) : bool :=
  match r_pubdate_iso r with
  | Some iso => sql_like pat iso
  | None => false
  end.

(** The sort key of [ORDER BY pubdate_iso]: the text, bytewise. *)
Definition iso_key (r : Row) : string := text_or_empty (r_pubdate_iso r).

(** [ORDER BY pubdate_iso DESC]; sqlite leaves the order of rows with equal
    keys open, here they stay in table order. *)
Fixpoint insert_desc (r : Row) (sorted : list Row) : list Row :=
  match sorted with
  | [] => [r]
  | x :: rest =>
      if String.leb (iso_key x) (iso_key r) then r :: sorted
      else x :: insert_desc r rest
  end.

Definition order_by_iso_desc (rs : list Row) : list Row :=
  fold_right insert_desc [] rs.

Definition query_db_for_date (date_obj : date) (t : Table) : list Rec :=
  let start := date_isoformat date_obj in
  let fetched :=
    order_by_iso_desc
      (filter (where_like (start ++ String percent EmptyString)) (rows t)) in
  map rec_of_row fetched.

(* ------------------------------------------------------------------ *)
(** ** [render_news_html] *)

(** Truthiness of [it.get("pubdate_iso")]. *)
Definition opt_truthy (x : option string) : bool :=
  match x with
  | Some s => Str.truthy s
  | None => false
  end.

(** The display timestamp [pub] of one record, for whatever
    [datetime.fromisoformat] ([parse], [None] when it raises) and
    [strftime("%Y-%m-%d %H:%M")] ([fmt]) answer. *)
Definition display_timestamp_with (parse : string -> option datetime)
  (fmt : datetime -> string) (it : Rec) : string :=
  let pub :=
    if opt_truthy (q_pubdate_iso it) then text_or_empty (q_pubdate_iso it)
    else if Str.truthy (q_pubdate_raw it) then q_pubdate_raw it
    else "" in
  if opt_truthy (q_pubdate_iso it) then
    match parse (text_or_empty (q_pubdate_iso it)) with
    | Some dt => fmt dt
    | None => pub
    end
  else pub.

(** The display timestamp with the reader and the formatter modelled
    here. *)
Definition display_timestamp (it : Rec) : string :=
  display_timestamp_with Iso.fromisoformat strftime_ymd_hm it.

Definition nl : string := String (ascii_of_nat 10) EmptyString.
Definition dq : string := String dquote EmptyString.

(** The f-string [block] of one record. *)
Definition news_block (it : Rec) : string :=
  let pub := display_timestamp it in
  let title_esc := html_escape (q_title it) in
  let link_esc := html_escape (q_link it) in
  let cat := html_escape (q_category it) in
  nl ++ "        <article class=" ++ dq ++ "news-item" ++ dq ++ ">" ++ nl
  ++ "            <h2><a href=" ++ dq ++ link_esc ++ dq
  ++ " target=" ++ dq ++ "_blank" ++ dq
  ++ " rel=" ++ dq ++ "noopener noreferrer" ++ dq ++ ">"
  ++ title_esc ++ "</a></h2>" ++ nl
  ++ "            <p class=" ++ dq ++ "news-meta" ++ dq ++ ">"
  ++ cat ++ " | " ++ pub ++ "</p>" ++ nl
  ++ "        </article>" ++ nl
  ++ "        ".

Definition nothing_found : string := "<p>Нічого не знайдено.</p>".

Definition news_body (items : list Rec) : string :=
  match items with
  | [] => nothing_found
  | _ => Str.join nl (map news_block items)
  end.

(** [render_news_html] on the template text read from the file; [now] is
    what [datetime.now()] reads for the [generated_at] token. *)
Definition render_news_html (tpl : string) (now : datetime)
  (date_obj : date) (items : list Rec) : string :=
  let rendered := Str.replace tpl "{{date}}" (date_isoformat date_obj) in
  let rendered := Str.replace rendered "{{news_list}}" (news_body items) in
  Str.replace rendered "{{generated_at}}" (isoformat_seconds " " now).

(* ------------------------------------------------------------------ *)
(** ** [main] *)

(** The files the program reads and writes. *)
Record World := MkWorld {
  db : Database;
  template : option string;
  news_files : list (string * string)
}.

(** What one run receives from outside: the body of the feed ([None] when
    [fetch_rss] raises) and the readings of the clock, in the order of the
    calls to [datetime.now()]. *)
Record Env := MkEnv {
  rss_response : option string;
  clock_today : datetime;
  clock_insert : nat -> datetime;
  clock_render : datetime
}.

(** How a run ends; [Done] carries the four printed counts and the path. *)
Inductive Outcome : Type :=
| TemplateMissing
| FetchFailed
| ParseError
| Done (n_items n_todays n_added n_db : nat) (path : string).

Definition write_news_file (date_obj : date) (html_text : string)
  (w : World) : World * string :=
  let path := "news/news_" ++ date_compact date_obj ++ ".html" in
  (MkWorld (db w) (template w) ((path, html_text) :: news_files w), path).

Section Orchestrator.
Context {lib : PyLib}.

(** [main]: [ensure_dirs] only creates directories, which [World] does not
    keep; [tpl] is what [load_template] reads once the file is known to
    exist; [ParseError] is the exception of [parse_rss] leaving [main]. *)
Definition main (env : Env) (w : World) : World * Outcome :=
  let t := init_db (db w) in
  let w := MkWorld (Some t) (template w) (news_files w) in
  match template w with
  | None => (w, TemplateMissing)
  | Some tpl =>
      match rss_response env with
      | None => (w, FetchFailed)
      | Some xml =>
          match parse_rss xml with
          | None => (w, ParseError)
          | Some items =>
              let today := dt_date (clock_today env) in
              let todays := filter_news items (Some today) None in
              let '(t', added) := save_new_to_db (clock_insert env) todays t in
              let db_items := query_db_for_date today t' in
              let html_text :=
                render_news_html tpl (clock_render env) today db_items in
              let '(w', out_path) :=
                write_news_file today html_text
                  (MkWorld (Some t') (template w) (news_files w)) in
              (w', Done (List.length items) (List.length todays)
                        (List.length added) (List.length db_items) out_path)
          end
      end
  end.

End Orchestrator.

(* ------------------------------------------------------------------ *)
(** ** The local name of a tag *)

(** ElementTree's tag of a namespaced element ([{uri}local]) or of a
    prefixed one ([prefix:local]) ends at the last separator; the local
    name is what follows it. *)
Definition is_separator (c : ascii) : bool :=
  Ascii.eqb c "}" || Ascii.eqb c ":".

Fixpoint after_last_separator (s : string) : option string :=
  match s with
  | EmptyString => None
  | String c rest =>
      match after_last_separator rest with
      | Some x => Some x
      | None => if is_separator c then Some rest else None
      end
  end.

Definition local_name (tag : string) : string :=
  match after_last_separator tag with
  | Some x => x
  | None => tag
  end.

(** The reading of "an item" that looks at the local name only. *)
Definition local_name_is_item (e : Element) : bool :=
  String.eqb (Str.lower (local_name (tag e))) "item".

(* ------------------------------------------------------------------ *)
(** ** Stand-ins for running the program on examples *)

Definition sample_pubdate : string := "Thu, 14 Mar 2024 10:05:00 +0200".

Definition sample_datetime : datetime :=
  DateTime 2024 3 14 10 5 0 0 (Some 7200000000%Z).

Definition sample_feed_text : string := "<rss>sample</rss>".

(** The tree of a feed with three entries: one dated, one with a date that
    does not parse and no link, one under a namespace with no date and no
    category. *)
Definition sample_feed : Element :=
  Elem "rss" None
    [Elem "channel" None
       [Elem "title" (Some "Feed") [];
        Elem "item" None
          [Elem "title" (Some " First ") [];
           Elem "link" (Some "http://example.org/1") [];
           Elem "category" (Some "news") [];
           Elem "pubDate" (Some sample_pubdate) []];
        Elem "item" None
          [Elem "title" (Some "Second") [];
           Elem "pubDate" (Some "yesterday") []];
        Elem "{http://example.org/ns}ITEM" None
          [Elem "{http://example.org/ns}title" (Some "Third") [];
           Elem "{http://example.org/ns}link" (Some "http://example.org/3") []]]].

(** A library that knows one date and one document. *)
Definition sample_lib : PyLib := {|
  html_unescape := fun s => s;
  parsedate_to_datetime :=
    fun s => if String.eqb s sample_pubdate then Some sample_datetime else None;
  ET_fromstring :=
    fun s => if String.eqb s sample_feed_text then Some sample_feed else None
|}.

Definition sample_env : Env :=
  MkEnv (Some sample_feed_text)
        (DateTime 2024 3 14 18 30 0 0 None)
        (fun k => DateTime 2024 3 14 18 30 (Z.of_nat k) 0 None)
        (DateTime 2024 3 14 18 31 0 0 None).

Definition sample_world : World :=
  MkWorld None (Some "<h1>{{date}}</h1>{{news_list}}<i>{{generated_at}}</i>") [].

(* ------------------------------------------------------------------ *)
(** ** Predicates of the properties *)

(** The two date fields as [parse_rss] leaves them. *)
Definition dates_together `{PyLib} (it : Item) : Prop :=
  (pubdate_iso it = None <-> pubdate_dt it = None)
  /\ (pubdate_raw it = "" \/ parsedate_to_datetime (pubdate_raw it) = None ->
      pubdate_iso it = None /\ pubdate_dt it = None)
  /\ (forall dt,
         pubdate_raw it <> "" ->
         parsedate_to_datetime (pubdate_raw it) = Some dt ->
         pubdate_iso it = Some (isoformat dt) /\ pubdate_dt it = Some dt).

(** The links of the stored rows, in table order. *)
Definition links (t : Table) : list string := map r_link (rows t).

(** The [UNIQUE] constraint on [link]. *)
Definition links_unique (t : Table) : Prop := NoDup (links t).

(** Several calls of [save_new_to_db], each with its own clock. *)
Definition save_many (calls : list ((nat -> datetime) * list Item))
  (t : Table) : Table :=
  fold_left (fun t call => fst (save_new_to_db (fst call) (snd call) t)) calls t.

(** The rows stored under the empty link. *)
Definition empty_link_rows (t : Table) : list Row :=
  filter (fun r => String.eqb (r_link r) "") (rows t).

(** The second sample entry: a title and a date, no link. *)
Definition linkless_entry : Element :=
  Elem "item" None
    [Elem "title" (Some "Second") [];
     Elem "pubDate" (Some "yesterday") []].

(** The characters of [YYYY-MM-DD]: digits and the hyphen. *)
Definition date_char (c : ascii) : bool :=
  let n := nat_of_ascii c in
  Ascii.eqb c "-" || ((48 <=? n) && (n <=? 57))%nat.

Fixpoint all_date_chars (s : string) : bool :=
  match s with
  | EmptyString => true
  | String c s' => date_char c && all_date_chars s'
  end.

(** "The first 10 characters of [pubdate_iso] equal [D] in [YYYY-MM-DD]
    form", for a row. *)
Definition iso_date_is (D : date) (r : Row) : bool :=
  match r_pubdate_iso r with
  | Some iso => String.eqb (substring 0 10 iso) (date_isoformat D)
  | None => false
  end.



(** The display timestamp read off the description "formatted when
    [pubdate_iso] is present and parses back, otherwise [pubdate_raw],
    otherwise empty". *)
Definition claimed_display (it : Rec) : string :=
  match q_pubdate_iso it with
  | Some iso =>
      match Iso.fromisoformat iso with
      | Some dt => strftime_ymd_hm dt
      | None => q_pubdate_raw it
      end
  | None => q_pubdate_raw it
  end.

(** [c in s] for one character. *)
Fixpoint occurs (c : ascii) (s : string) : bool :=
  match s with
  | EmptyString => false
  | String d s' => Ascii.eqb c d || occurs c s'
  end.

(** The fixed text of an article block around its four holes. *)
Definition block_open : string :=
  nl ++ "        <article class=" ++ dq ++ "news-item" ++ dq ++ ">" ++ nl
  ++ "            <h2><a href=" ++ dq.
Definition block_after_link : string :=
  dq ++ " target=" ++ dq ++ "_blank" ++ dq
  ++ " rel=" ++ dq ++ "noopener noreferrer" ++ dq ++ ">".
Definition block_after_title : string :=
  "</a></h2>" ++ nl ++ "            <p class=" ++ dq ++ "news-meta" ++ dq ++ ">".
Definition block_close : string :=
  "</p>" ++ nl ++ "        </article>" ++ nl ++ "        ".

(** A stored record whose title carries markup. *)
Definition script_rec : Rec :=
  MkRec "<script>alert('x')</script>" "http://example.org/?a=1&b=2" "R&D"
        (Some "2024-03-14T10:05:00+02:00") sample_pubdate.

(** The number of records a run inserted; none when it stopped early. *)
Definition inserted (o : Outcome) : nat :=
  match o with
  | Done _ _ n_added _ _ => n_added
  | _ => 0%nat
  end.

(** A later run of the same day over the same feed: another clock, the same
    calendar date. *)
Definition sample_env_later : Env :=
  MkEnv (Some sample_feed_text)
        (DateTime 2024 3 14 21 0 0 0 None)
        (fun k => DateTime 2024 3 14 21 0 (Z.of_nat k) 0 None)
        (DateTime 2024 3 14 21 1 0 0 None).

(** Whether a string begins with a white space character, is one, or ends
    with one. *)
Definition starts_with_space (s : string) : bool :=
  match s with
  | EmptyString => false
  | String a r1 =>
      Str.isspace a
      || match r1 with
         | EmptyString => false
         | String b r2 =>
             Str.isspace2 a b
             || match r2 with
                | EmptyString => false
                | String c _ => Str.isspace3 a b c
                end
         end
  end.

Definition is_one_space (s : string) : bool :=
  match s with
  | String a EmptyString => Str.isspace a
  | String a (String b EmptyString) => Str.isspace2 a b
  | String a (String b (String c EmptyString)) => Str.isspace3 a b c
  | _ => false
  end.

Fixpoint ends_with_space (s : string) : bool :=
  match s with
  | EmptyString => false
  | String _ s' => is_one_space s || ends_with_space s'
  end.

Definition stripped (s : string) : Prop :=
  starts_with_space s = false /\ ends_with_space s = false
  /\ Str.strip s = s.

(** An entry whose children come in an unusual order and letter case. *)
Definition shuffled_entry : Element :=
  Elem "item" (Some "text of the entry itself")
    [Elem "guid" (Some "g-1") [];
     Elem "{http://example.org/ns}Title" None [];
     Elem "title" (Some "second title") [];
     Elem "LINK" (Some "  http://example.org/x  ") []].

(** The row that [save_new_to_db] writes for an item. *)
Definition row_of_item (id : Z) (it : Item) (now : string) : Row :=
  MkRow id (link it) (title it) (category it) (pubdate_iso it)
        (pubdate_raw it) now.

(** A row holds the five columns of an item. *)
Definition row_holds (it : Item) (r : Row) : Prop :=
  r_link r = link it /\ r_title r = title it /\ r_category r = category it
  /\ r_pubdate_iso r = pubdate_iso it /\ r_pubdate_raw r = pubdate_raw it.

(** The ids of the rows grow with the insertion order and none exceeds the
    largest id handed out. *)
Definition ids_ok (t : Table) : Prop :=
  StronglySorted Z.lt (map r_id (rows t))
  /\ Forall (fun r => (r_id r <= last_id t)%Z) (rows t).

(** Two items of the sample feed and a later version of the first. *)
Definition first_item : Item :=
  MkItem "First" "http://example.org/1" "news" sample_pubdate
         (Some "2024-03-14T10:05:00+02:00") (Some sample_datetime).

Definition first_item_retitled : Item :=
  MkItem "First (updated)" "http://example.org/1" "politics" sample_pubdate
         (Some "2024-03-14T10:05:00+02:00") (Some sample_datetime).

Definition other_item : Item :=
  MkItem "Other" "http://example.org/2" "" "" None None.

(** The clock of the sample run, and a batch in which a link comes twice. *)
Definition sample_clock : nat -> datetime := clock_insert sample_env.

Definition sample_batch : list Item :=
  [other_item; first_item; first_item_retitled].

(** The dates that [datetime.date] can hold. *)
Definition date_ok (D : date) : bool :=
  Iso.in_range 1 (d_year D) 9999 && Iso.in_range 1 (d_month D) 12
  && Iso.in_range 1 (d_day D) (Iso.days_in_month (d_year D) (d_month D)).

(** What a later [open(path)] would read: the last text written there. *)
Fixpoint lookup_file (path : string) (files : list (string * string))
  : option string :=
  match files with
  | [] => None
  | (p, text) :: rest =>
      if String.eqb p path then Some text else lookup_file path rest
  end.

Definition read_file (path : string) (w : World) : option string :=
  lookup_file path (news_files w).

(** The world as [main] leaves it when it stops before the store is
    written: the table exists, nothing else has changed. *)
Definition world_after_init (w : World) : World :=
  MkWorld (Some (init_db (db w))) (template w) (news_files w).

(** The table of a world, as the next [init_db] finds it. *)
Definition table_of (w : World) : Table := init_db (db w).

(** The path of the page of a date. *)
Definition page_path (D : date) : string :=
  "news/news_" ++ date_compact D ++ ".html".

(** No opening brace in a text: no placeholder token can start in it. *)
Definition brace_free (s : string) : Prop := occurs "{" s = false.

Definition rec_brace_free (q : Rec) : Prop :=
  brace_free (q_title q) /\ brace_free (q_link q) /\ brace_free (q_category q)
  /\ brace_free (text_or_empty (q_pubdate_iso q))
  /\ brace_free (q_pubdate_raw q).

(** None of the five characters that [html.escape] rewrites. *)
Definition is_special (c : ascii) : bool :=
  Ascii.eqb c amp || Ascii.eqb c lt || Ascii.eqb c gt
  || Ascii.eqb c dquote || Ascii.eqb c squote.

Fixpoint no_special (s : string) : bool :=
  match s with
  | EmptyString => true
  | String c s' => negb (is_special c) && no_special s'
  end.

(** A template with the three tokens in the order date, list, time, and
    its four stretches of fixed text. *)
Definition template_of (a b c d : string) : string :=
  a ++ "{{date}}" ++ b ++ "{{news_list}}" ++ c ++ "{{generated_at}}" ++ d.

(** The items of a batch that carry a link not seen before, each link at
    its first occurrence, in batch order. *)
Fixpoint new_items (seen : list string) (items : list Item) : list Item :=
  match items with
  | [] => []
  | it :: rest =>
      if Str.mem (link it) seen then new_items seen rest
      else it :: new_items (seen ++ [link it]) rest
  end.

(** The clock as a later part of the loop reads it. *)
Definition clock_from (n : nat) (clock : nat -> datetime) : nat -> datetime :=
  fun k => clock (n + k)%nat.

(** An item inside an item. *)
Definition nested_feed : Element :=
  Elem "item" None
    [Elem "title" (Some "outer") [];
     Elem "item" None [Elem "title" (Some "inner") []]].

(** A run late on the day before the sample run: the same feed, the clock
    on 13 March. *)
Definition sample_env_eve : Env :=
  MkEnv (Some sample_feed_text)
        (DateTime 2024 3 13 23 55 0 0 None)
        (fun k => DateTime 2024 3 13 23 55 (Z.of_nat k) 0 None)
        (DateTime 2024 3 13 23 56 0 0 None).


(** ASCII text: every byte below 128. *)
Fixpoint is_ascii (s : string) : bool :=
  match s with
  | EmptyString => true
  | String c s' => (nat_of_ascii c <? 128)%nat && is_ascii s'
  end.

(* ================================================================== *)
(** * Properties *)

Unset Implicit Arguments.

(** ** The program on the sample feed *)

Example parse_sample_links :
  map link (@parse_root sample_lib sample_feed)
  = ["http://example.org/1"; ""; "http://example.org/3"].
Proof. reflexivity. Qed.

Example parse_sample_dates :
  map pubdate_iso (@parse_root sample_lib sample_feed)
  = [Some "2024-03-14T10:05:00+02:00"; None; None].
Proof. reflexivity. Qed.

Example fromisoformat_sample :
  Iso.fromisoformat (isoformat sample_datetime) = Some sample_datetime.
Proof. reflexivity. Qed.

Example main_sample_outcome :
  snd (@main sample_lib sample_env sample_world)
  = Done 3 3 3 1 "news/news_20240314.html".
Proof. vm_compute. reflexivity. Qed.

(** ** Lists built by appending in a loop *)

Lemma fold_left_append_if (A B : Type) (p : A -> bool) (f : A -> B)
  (l : list A) (acc : list B) :
  fold_left (fun out x => if p x then (out ++ [f x])%list else out) l acc
  = (acc ++ map f (filter p l))%list.
Proof.
  revert acc; induction l as [|x l IH]; intros acc; simpl.
  - now rewrite app_nil_r.
  - rewrite IH. destruct (p x); simpl; [|reflexivity].
    now rewrite <- app_assoc.
Qed.

Lemma filter_news_filter items date_filter categories :
  filter_news items date_filter categories
  = filter (filter_ok date_filter categories) items.
Proof.
  unfold filter_news.
  rewrite (fold_left_append_if _ _ (filter_ok date_filter categories) (fun it => it)).
  now rewrite map_id.
Qed.

Lemma parse_root_filter `{PyLib} root :
  parse_root root
  = map item_of_element
      (filter (fun e => _tag_endswith (tag e) "item") (iter root)).
Proof.
  unfold parse_root.
  now rewrite (fold_left_append_if _ _ (fun e => _tag_endswith (tag e) "item")
                 item_of_element).
Qed.

Lemma date_eqb_eq a b : date_eqb a b = true <-> a = b.
Proof.
  destruct a as [y1 m1 d1], b as [y2 m2 d2]; unfold date_eqb; simpl.
  rewrite !andb_true_iff, !Z.eqb_eq. split.
  - intros [[-> ->] ->]; reflexivity.
  - intros E; injection E; auto.
Qed.

Lemma mem_In x xs : Str.mem x xs = true <-> In x xs.
Proof.
  unfold Str.mem. rewrite existsb_exists. split.
  - intros [y [Hy E]]. apply String.eqb_eq in E. now subst.
  - intros Hx. exists x. split; [assumption | apply String.eqb_refl].
Qed.

Lemma truthy_false s : Str.truthy s = false <-> s = "".
Proof. destruct s; simpl; split; congruence. Qed.

(** ** The item filter *)

(** What the date test of [filter_news] lets through. *)
Lemma filter_ok_date D it :
  filter_ok (Some D) None it = true
  <-> pubdate_dt it = None
      \/ exists dt, pubdate_dt it = Some dt /\ dt_date dt = D.
Proof.
  unfold filter_ok. destruct (pubdate_dt it) as [dt|].
  - destruct (date_eqb (dt_date dt) D) eqn:E; simpl.
    + apply date_eqb_eq in E. split; [|reflexivity].
      intros _. right. now exists dt.
    + split; [discriminate|].
      intros [C | [dt' [C1 C2]]]; [discriminate|].
      injection C1 as <-. apply date_eqb_eq in C2. congruence.
  - split; [now left | reflexivity].
Qed.

Lemma filter_ok_categories c cs it :
  filter_ok None (Some (c :: cs)) it = true
  <-> category it = "" \/ In (category it) (c :: cs).
Proof.
  unfold filter_ok. destruct (Str.truthy (category it)) eqn:T.
  - destruct (Str.mem (category it) (c :: cs)) eqn:M; simpl.
    + apply mem_In in M. split; [now right | reflexivity].
    + split; [discriminate|]. intros [E | I].
      * apply truthy_false in E. congruence.
      * pose proof (proj2 (mem_In (category it) (c :: cs)) I). congruence.
  - apply truthy_false in T. split; [now left | reflexivity].
Qed.

(** C1, as stated, fails: an item without a parsed date passes a date
    filter. *)
Lemma filter_news_date_claim_fails :
  ~ (forall (items : list Item) (D : date) (it : Item),
        In it (filter_news items (Some D) None)
        <-> In it items
            /\ exists dt, pubdate_dt it = Some dt /\ dt_date dt = D).
Proof.
  intros claim.
  pose (it := MkItem "t" "http://example.org/a" "" "yesterday" None None).
  destruct (proj1 (claim [it] (Date 2024 3 14) it)) as [_ [dt [E _]]].
  - simpl. now left.
  - discriminate.
Qed.

(** C1 (amended): with a date filter [D], an item of the input is kept if
    and only if it has no parsed publish date or its parsed publish date
    falls on [D]; the kept items stay in input order. *)
Theorem filter_news_by_date :
  forall (items : list Item) (D : date),
    (forall it,
        In it (filter_news items (Some D) None)
        <-> In it items
            /\ (pubdate_dt it = None
                \/ exists dt, pubdate_dt it = Some dt /\ dt_date dt = D))
    /\ filter_news items (Some D) None
       = filter (fun it =>
                   match pubdate_dt it with
                   | Some dt => date_eqb (dt_date dt) D
                   | None => true
                   end) items.
Proof.
  intros items D. split.
  - intros it. rewrite filter_news_filter, filter_In.
    now rewrite filter_ok_date.
  - rewrite filter_news_filter. apply filter_ext. intros it.
    unfold filter_ok. destruct (pubdate_dt it); [|reflexivity].
    now destruct (date_eqb _ _).
Qed.

(** C2, as stated, fails: an item with an empty category passes a category
    filter. *)
Lemma filter_news_category_claim_fails :
  ~ (forall (items : list Item) (c : string) (cs : list string) (it : Item),
        In it (filter_news items None (Some (c :: cs)))
        -> category it <> "" /\ In (category it) (c :: cs)).
Proof.
  intros claim.
  pose (it := MkItem "t" "http://example.org/a" "" "" None None).
  destruct (claim [it] "sport" [] it) as [E _].
  - simpl. now left.
  - now apply E.
Qed.

(** C2 (amended): with a non-empty category list [C], an item of the input
    is kept if and only if its category is empty or is a member of [C]. *)
Theorem filter_news_by_category :
  forall (items : list Item) (c : string) (cs : list string) (it : Item),
    In it (filter_news items None (Some (c :: cs)))
    <-> In it items /\ (category it = "" \/ In (category it) (c :: cs)).
Proof.
  intros items c cs it.
  rewrite filter_news_filter, filter_In.
  now rewrite filter_ok_categories.
Qed.

(** ** The parser *)

Lemma item_of_element_dates `{PyLib} (e : Element) :
  dates_together (item_of_element e).
Proof.
  unfold dates_together, item_of_element, parse_pubdate.
  set (raw := Str.strip (get_child_text e "pubdate")).
  destruct (Str.truthy raw) eqn:T.
  - destruct (parsedate_to_datetime raw) as [dt|] eqn:P; simpl; rewrite ?P.
    + split; [split; discriminate|]. split.
      * intros [E | E]; [|discriminate].
        rewrite E in T. discriminate.
      * intros dt' _ E. injection E as <-. now split.
    + split; [split; reflexivity|]. split.
      * now split.
      * intros dt' _ E. discriminate.
  - apply truthy_false in T. simpl.
    split; [split; reflexivity|]. split.
    + now split.
    + intros dt' N _. congruence.
Qed.

(** C6: in every item that the parser produces, [pubdate_iso] and
    [pubdate_dt] are both present or both absent; an empty [pubdate_raw] or
    a failed parse of it leaves both absent, a successful parse sets both
    from the one parsed value. *)
Theorem parse_rss_dates_together :
  forall (lib : PyLib),
    (forall root : Element, Forall dates_together (parse_root root))
    /\ (forall xml : string,
           match parse_rss xml with
           | Some items => Forall dates_together items
           | None => ET_fromstring xml = None
           end).
Proof.
  intros lib.
  assert (A : forall root, Forall dates_together (parse_root root)).
  { intros root. rewrite parse_root_filter.
    apply Forall_forall. intros it Hit.
    apply in_map_iff in Hit. destruct Hit as [e [<- _]].
    apply item_of_element_dates. }
  split; [exact A|].
  intros xml. unfold parse_rss.
  destruct (ET_fromstring xml); [apply A | reflexivity].
Qed.

Lemma endswith_spec s suf :
  Str.endswith s suf = true <-> exists p, s = p ++ suf.
Proof.
  induction s as [|c s IH]; cbn [Str.endswith].
  - destruct (String.eqb_spec "" suf) as [<- | N]; cbv iota.
    + split; [now exists "" | reflexivity].
    + split; [discriminate|].
      intros [p E]. destruct p; simpl in E; congruence.
  - destruct (String.eqb_spec (String c s) suf) as [<- | N]; cbv iota.
    + split; [now exists "" | reflexivity].
    + rewrite IH. split.
      * intros [p ->]. now exists (String c p).
      * intros [p E]. destruct p as [|d p]; simpl in E.
        -- congruence.
        -- injection E as _ ->. now exists p.
Qed.

Lemma lower_app a b : Str.lower (a ++ b) = Str.lower a ++ Str.lower b.
Proof. induction a as [|c a IH]; simpl; [reflexivity | now rewrite IH]. Qed.

Lemma append_assoc (a b c : string) : (a ++ b) ++ c = a ++ (b ++ c).
Proof. induction a as [|x a IH]; simpl; [reflexivity | now rewrite IH]. Qed.

Lemma tag_endswith_prefixed p t name :
  _tag_endswith t name = true -> _tag_endswith (p ++ t) name = true.
Proof.
  unfold _tag_endswith. rewrite !endswith_spec, lower_app.
  intros [q ->]. exists (Str.lower p ++ q). now rewrite append_assoc.
Qed.

Lemma after_last_separator_suffix t x :
  after_last_separator t = Some x -> exists p, t = p ++ x.
Proof.
  revert x; induction t as [|c t IH]; intros x; simpl; [discriminate|].
  destruct (after_last_separator t) as [y|].
  - intros E; injection E as <-.
    destruct (IH y eq_refl) as [p ->]. now exists (String c p).
  - destruct (is_separator c); [|discriminate].
    intros E; injection E as <-. now exists (String c "").
Qed.

Lemma local_name_suffix t : exists p, t = p ++ local_name t.
Proof.
  unfold local_name. destruct (after_last_separator t) as [x|] eqn:E.
  - now apply after_last_separator_suffix.
  - now exists "".
Qed.

(** C9, as stated, fails: an element whose local name only ends in [item]
    is extracted as an item. *)
Lemma parse_local_name_claim_fails :
  ~ (forall (lib : PyLib) (root : Element),
        parse_root root
        = map item_of_element (filter local_name_is_item (iter root))).
Proof.
  intros claim.
  specialize (claim sample_lib (Elem "subitem" None [])).
  vm_compute in claim. discriminate.
Qed.

(** C9 (amended): the parser extracts, in document order, exactly the
    elements anywhere in the tree whose lower-cased tag ends with [item].
    Every element whose local name is [item] in any letter case is among
    them, under any namespace prefix, and the item extracted does not depend
    on the tag; an element whose local name merely ends in [item] is
    extracted too. *)
Theorem parse_extracts_tag_suffix_item :
  forall (lib : PyLib),
    (forall root,
        parse_root root
        = map item_of_element
            (filter (fun e => _tag_endswith (tag e) "item") (iter root)))
    /\ (forall t, _tag_endswith t "item" = true
                  <-> exists p, Str.lower t = p ++ "item")
    /\ (forall e, local_name_is_item e = true ->
                  _tag_endswith (tag e) "item" = true)
    /\ (forall p t x cs,
           _tag_endswith t "item" = true ->
           _tag_endswith (p ++ t) "item" = true
           /\ item_of_element (Elem (p ++ t) x cs) = item_of_element (Elem t x cs))
    /\ parse_root (Elem "subitem" None [])
       = [item_of_element (Elem "subitem" None [])].
Proof.
  intros lib. split; [|split; [|split; [|split]]].
  - intros root. apply parse_root_filter.
  - intros t. unfold _tag_endswith. apply endswith_spec.
  - intros e L. unfold local_name_is_item in L.
    apply String.eqb_eq in L.
    destruct (local_name_suffix (tag e)) as [p E].
    unfold _tag_endswith. apply endswith_spec.
    exists (Str.lower p). rewrite E at 1. rewrite lower_app, L. reflexivity.
  - intros p t x cs E. split.
    + now apply tag_endswith_prefixed.
    + reflexivity.
  - reflexivity.
Qed.

(** ** The store *)

Lemma has_link_In t l : has_link t l = true <-> In l (links t).
Proof.
  unfold has_link, links. rewrite existsb_exists, in_map_iff.
  split; intros [r [A B]]; exists r.
  - apply String.eqb_eq in B. now split.
  - split; [assumption | now apply String.eqb_eq].
Qed.

Lemma has_link_false t l : has_link t l = false <-> ~ In l (links t).
Proof.
  rewrite <- has_link_In. destruct (has_link t l); split; congruence.
Qed.

(** A successful [INSERT] adds one row at the end, under a link that was not
    there; a refused one changes nothing. *)
Lemma sql_insert_some t it now t' :
  sql_insert t it now = Some t' ->
  ~ In (link it) (links t)
  /\ t' = MkTable
            (rows t ++ [MkRow (last_id t + 1) (link it) (title it) (category it)
                          (pubdate_iso it) (pubdate_raw it) now])
            (last_id t + 1).
Proof.
  unfold sql_insert. destruct (has_link t (link it)) eqn:E; [discriminate|].
  intros H; injection H as <-. split; [|reflexivity].
  now apply has_link_false.
Qed.

Lemma sql_insert_none t it now :
  sql_insert t it now = None <-> In (link it) (links t).
Proof.
  unfold sql_insert. rewrite <- has_link_In.
  destruct (has_link t (link it)); split; congruence.
Qed.

Lemma links_snoc t r id :
  links (MkTable (rows t ++ [r]) id) = (links t ++ [r_link r])%list.
Proof. unfold links; simpl. now rewrite map_app. Qed.

Lemma NoDup_snoc (A : Type) (l : list A) (x : A) :
  NoDup l -> ~ In x l -> NoDup (l ++ [x]).
Proof.
  intros N I. apply NoDup_app; [assumption | repeat constructor; auto |].
  intros a Ha [<- | []]. contradiction.
Qed.

Lemma NoDup_app_disjoint (A : Type) (l1 l2 : list A) :
  NoDup (l1 ++ l2) -> forall a, In a l1 -> ~ In a l2.
Proof.
  induction l1 as [|x l1 IH]; simpl; intros N a Ha; [contradiction|].
  apply NoDup_cons_iff in N. destruct N as [Nx N].
  destruct Ha as [<- | Ha].
  - intros H2. apply Nx. apply in_or_app. now right.
  - now apply IH.
Qed.

(** What one run of the insert loop does to the table and to [added]. *)
Lemma save_loop_spec clock items :
  forall k t added,
    links_unique t ->
    exists fresh new,
      save_loop clock k items t added
      = (MkTable (rows t ++ fresh) (last_id t + Z.of_nat (List.length fresh)),
         (added ++ new)%list)
      /\ map r_link fresh = map link new
      /\ NoDup (links t ++ map link new)
      /\ (forall it, In it new -> In it items)
      /\ (forall it, In it items ->
                     In (link it) (links t ++ map link new)).
Proof.
  induction items as [|it items IH]; intros k t added U; simpl.
  - exists [], []. rewrite !app_nil_r, Z.add_0_r. destruct t; simpl.
    repeat split; auto. intros it [].
  - destruct (sql_insert t it _) as [t'|] eqn:E.
    + apply sql_insert_some in E. destruct E as [Hnew ->].
      set (r := MkRow _ _ _ _ _ _ _).
      set (t' := MkTable _ _).
      assert (U' : links_unique t').
      { unfold links_unique, t'. rewrite links_snoc.
        now apply NoDup_snoc. }
      destruct (IH (S k) t' (added ++ [it])%list U')
        as [fresh [new [Eq [Hmap [Hnd [Hsub Hall]]]]]].
      exists (r :: fresh), (it :: new). rewrite Eq.
      unfold t' in *. rewrite links_snoc in *. simpl rows. simpl last_id.
      rewrite <- !app_assoc in *. simpl in *.
      split; [f_equal; f_equal; lia|].
      split; [now rewrite Hmap|].
      split; [assumption|].
      split.
      * intros x [<- | Hx]; [now left | right; now apply Hsub].
      * intros x [<- | Hx]; [|now apply Hall].
        apply in_or_app. right. now left.
    + apply sql_insert_none in E.
      destruct (IH (S k) t added U)
        as [fresh [new [Eq [Hmap [Hnd [Hsub Hall]]]]]].
      exists fresh, new. rewrite Eq.
      split; [reflexivity|]. split; [assumption|]. split; [assumption|].
      split.
      * intros x Hx. right. now apply Hsub.
      * intros x [<- | Hx]; [|now apply Hall].
        apply in_or_app. now left.
Qed.

Lemma save_new_to_db_unique clock items t :
  links_unique t -> links_unique (fst (save_new_to_db clock items t)).
Proof.
  intros U. unfold save_new_to_db.
  destruct (save_loop_spec clock items 0 t [] U)
    as [fresh [new [Eq [Hmap [Hnd _]]]]].
  rewrite Eq. unfold links_unique, links. simpl.
  now rewrite map_app, Hmap.
Qed.

Lemma save_many_unique calls :
  forall t, links_unique t -> links_unique (save_many calls t).
Proof.
  unfold save_many.
  induction calls as [|[clock items] calls IH]; intros t U; simpl.
  - assumption.
  - apply IH. now apply save_new_to_db_unique.
Qed.

(** One call: the old rows stay, one row is appended per returned item,
    and a returned item's link was not stored before. *)
Lemma save_new_to_db_rows clock items t :
  links_unique t ->
  exists fresh,
    fst (save_new_to_db clock items t)
    = MkTable (rows t ++ fresh) (last_id t + Z.of_nat (List.length fresh))
    /\ map r_link fresh = map link (snd (save_new_to_db clock items t))
    /\ links_unique (fst (save_new_to_db clock items t))
    /\ (forall it, In it (snd (save_new_to_db clock items t)) ->
                   In it items /\ ~ In (link it) (links t))
    /\ (forall it, In it items ->
                   In (link it) (links (fst (save_new_to_db clock items t)))).
Proof.
  intros U.
  pose proof (save_new_to_db_unique clock items t U) as U'.
  unfold save_new_to_db in *.
  destruct (save_loop_spec clock items 0 t [] U)
    as [fresh [new [Eq [Hmap [Hnd [Hsub Hall]]]]]].
  rewrite Eq in *. simpl in *. exists fresh.
  split; [reflexivity|]. split; [assumption|]. split; [assumption|].
  split.
  - intros it Hit. split; [now apply Hsub|].
    intros Hold.
    apply (NoDup_app_disjoint _ _ _ Hnd (link it)); [assumption|].
    now apply in_map.
  - intros it Hit. unfold links. simpl.
    rewrite map_app, Hmap. now apply Hall.
Qed.

(** C3: the links of the stored rows stay pairwise distinct through every
    call of [save_new_to_db], and so through any number of calls on the
    table that [init_db] creates.  A call leaves the rows it finds as they
    are and appends one row for each item it returns; an item whose link is
    already stored, from before the call or from earlier in it, adds no row
    and is not returned. *)
Theorem save_new_to_db_one_row_per_link :
  forall (clock : nat -> datetime),
    (forall items t,
        links_unique t ->
        exists fresh,
          fst (save_new_to_db clock items t)
          = MkTable (rows t ++ fresh)
                    (last_id t + Z.of_nat (List.length fresh))
          /\ map r_link fresh = map link (snd (save_new_to_db clock items t))
          /\ links_unique (fst (save_new_to_db clock items t))
          /\ (forall it, In it (snd (save_new_to_db clock items t)) ->
                         In it items /\ ~ In (link it) (links t))
          /\ (forall it, In it items ->
                         In (link it)
                            (links (fst (save_new_to_db clock items t)))))
    /\ (forall calls, links_unique (save_many calls (init_db None))).
Proof.
  intros clock. split.
  - intros items t U. now apply save_new_to_db_rows.
  - intros calls. apply save_many_unique. constructor.
Qed.

(** ** Items without a link *)

Lemma first_child_text_none cs name :
  (forall c, In c cs -> _tag_endswith (tag c) name = false) ->
  first_child_text cs name = "".
Proof.
  induction cs as [|c cs IH]; intros H; simpl; [reflexivity|].
  rewrite (H c (or_introl eq_refl)).
  apply IH. intros d Hd. apply H. now right.
Qed.

Lemma empty_link_rows_length t :
  links_unique t -> (List.length (empty_link_rows t) <= 1)%nat.
Proof.
  unfold links_unique, links, empty_link_rows.
  induction (rows t) as [|r rs IH]; simpl; intros N; [lia|].
  apply NoDup_cons_iff in N. destruct N as [Nr N].
  destruct (String.eqb_spec (r_link r) "") as [E | E]; [|now apply IH].
  simpl. rewrite E in Nr.
  assert (Z : filter (fun r0 => String.eqb (r_link r0) "") rs = []).
  { destruct (filter _ rs) as [|x xs] eqn:F; [reflexivity|].
    exfalso. apply Nr.
    assert (Hx : In x (filter (fun r0 => String.eqb (r_link r0) "") rs))
      by (rewrite F; now left).
    apply filter_In in Hx. destruct Hx as [Hx Hl].
    apply String.eqb_eq in Hl. rewrite <- Hl. now apply in_map. }
  rewrite Z. simpl. lia.
Qed.

(** C10: an entry none of whose children has a tag matching [link] is
    parsed with the empty string as its link.  Saving it to a table that has
    no row under the empty link stores it as a new row with that empty link;
    a table whose links are distinct never holds more than one such row,
    whatever is saved to it; and once such a row is there, saving the item
    changes nothing and returns nothing, and no item with an empty link is
    among the items any later call returns. *)
Theorem linkless_item_stored_once :
  forall (lib : PyLib) (e : Element),
    (forall c, In c (children e) -> _tag_endswith (tag c) "link" = false) ->
    link (item_of_element e) = ""
    /\ (forall clock t,
           has_link t "" = false ->
           exists row,
             save_new_to_db clock [item_of_element e] t
             = (MkTable (rows t ++ [row]) (last_id t + 1), [item_of_element e])
             /\ r_link row = "")
    /\ (forall clock items t,
           links_unique t ->
           (List.length
              (empty_link_rows (fst (save_new_to_db clock items t))) <= 1)%nat)
    /\ (forall clock t,
           has_link t "" = true ->
           save_new_to_db clock [item_of_element e] t = (t, []))
    /\ (forall clock items t,
           links_unique t ->
           has_link t "" = true ->
           forall it, In it (snd (save_new_to_db clock items t)) ->
                      link it <> "").
Proof.
  intros lib e Hno.
  assert (L : link (item_of_element e) = "").
  { unfold item_of_element. destruct (parse_pubdate _) as [iso dt]. simpl.
    unfold get_child_text. now rewrite first_child_text_none. }
  split; [exact L|]. split; [|split; [|split]].
  - intros clock t Hfree.
    unfold save_new_to_db, save_loop, sql_insert. rewrite L, Hfree.
    eexists. split; [reflexivity|]. reflexivity.
  - intros clock items t U.
    apply empty_link_rows_length. now apply save_new_to_db_unique.
  - intros clock t Hthere.
    unfold save_new_to_db, save_loop, sql_insert. now rewrite L, Hthere.
  - intros clock items t U Hthere it Hit E.
    destruct (save_new_to_db_rows clock items t U)
      as [fresh [_ [_ [_ [Hadded _]]]]].
    destruct (Hadded it Hit) as [_ Hnot].
    apply Hnot. rewrite E. now apply has_link_In.
Qed.

(** The second entry of the sample feed has a title and a date only: it is
    parsed with the empty link. *)
Lemma linkless_item_stored_once_witness :
  link (@item_of_element sample_lib linkless_entry) = "".
Proof.
  refine (proj1 (linkless_item_stored_once sample_lib linkless_entry _)).
  intros c [<- | [<- | []]]; reflexivity.
Defined.

(** ** The query by date *)

Lemma like_date_char p c :
  date_char p = true ->
  Ascii.eqb p percent = false
  /\ (Ascii.eqb p underscore
      || Ascii.eqb (Str.lower_ascii p) (Str.lower_ascii c)) = Ascii.eqb p c.
Proof.
  destruct p as [[] [] [] [] [] [] [] []]; intros H;
    vm_compute in H; try discriminate H; clear H;
    (split; [reflexivity|]);
    destruct c as [[] [] [] [] [] [] [] []]; reflexivity.
Qed.

Lemma sql_like_percent s : sql_like (String percent "") s = true.
Proof.
  cbn [sql_like]. rewrite Ascii.eqb_refl.
  induction s as [|c s IH]; [reflexivity|].
  rewrite IH. apply orb_true_r.
Qed.

(** A pattern of date characters followed by [%] matches the strings that
    start with those characters. *)
Lemma sql_like_prefix pat :
  all_date_chars pat = true ->
  forall s, sql_like (pat ++ String percent "") s = Str.startswith s pat.
Proof.
  induction pat as [|p pat IH]; intros A s.
  - cbn [append]. rewrite (sql_like_percent s). now destruct s.
  - cbn [all_date_chars] in A. apply andb_true_iff in A. destruct A as [Ap A].
    cbn [append sql_like Str.startswith].
    destruct (like_date_char p "a" Ap) as [-> _].
    destruct s as [|c s]; [reflexivity|].
    destruct (like_date_char p c Ap) as [_ ->].
    now rewrite IH.
Qed.

Lemma startswith_substring p :
  forall s, Str.startswith s p = String.eqb (substring 0 (String.length p) s) p.
Proof.
  induction p as [|a p IH]; intros s.
  - destruct s; reflexivity.
  - destruct s as [|b s]; [reflexivity|].
    cbn [Str.startswith String.length substring String.eqb].
    rewrite IH, (Ascii.eqb_sym a b).
    now destruct (Ascii.eqb b a).
Qed.

Lemma digit_date_char n : date_char (Fmt.digit n) = true.
Proof.
  unfold Fmt.digit.
  assert (B : (0 <= n mod 10 < 10)%Z) by (apply Z.mod_pos_bound; lia).
  destruct (n mod 10)%Z as [|q|q]; [reflexivity | | lia].
  do 4 (destruct q as [q|q|]; try lia; try reflexivity).
Qed.

Lemma date_isoformat_shape D :
  all_date_chars (date_isoformat D) = true
  /\ String.length (date_isoformat D) = 10%nat.
Proof.
  unfold date_isoformat, Fmt.pad4, Fmt.pad2. cbn [append all_date_chars].
  rewrite !digit_date_char. split; reflexivity.
Qed.

Lemma where_like_iso_date D r :
  where_like (date_isoformat D ++ String percent "") r = iso_date_is D r.
Proof.
  unfold where_like, iso_date_is.
  destruct (r_pubdate_iso r) as [iso|]; [|reflexivity].
  destruct (date_isoformat_shape D) as [A L].
  now rewrite (sql_like_prefix _ A), startswith_substring, L.
Qed.


Lemma insert_desc_perm r l : Permutation (insert_desc r l) (r :: l).
Proof.
  induction l as [|x l IH]; simpl; [reflexivity|].
  destruct (String.leb (iso_key x) (iso_key r)); [reflexivity|].
  rewrite IH. apply perm_swap.
Qed.

Lemma order_by_iso_desc_perm l : Permutation (order_by_iso_desc l) l.
Proof.
  induction l as [|x l IH]; simpl; [constructor|].
  rewrite insert_desc_perm. now constructor.
Qed.



Lemma query_db_for_date_eq D t :
  query_db_for_date D t
  = map rec_of_row (order_by_iso_desc (filter (iso_date_is D) (rows t))).
Proof.
  unfold query_db_for_date. do 2 f_equal.
  apply filter_ext. intros r. apply where_like_iso_date.
Qed.




(** ** The renderer *)

(** C7, as stated, fails: a [pubdate_iso] that is present and does not parse
    back is shown as it is, not replaced by [pubdate_raw]. *)
Lemma display_timestamp_claim_fails :
  ~ (forall it : Rec, display_timestamp it = claimed_display it).
Proof.
  intros claim.
  specialize (claim (MkRec "t" "l" "c" (Some "14.03.2024") sample_pubdate)).
  vm_compute in claim. discriminate.
Qed.

Lemma fromisoformat_nonempty iso dt :
  Iso.fromisoformat iso = Some dt -> Str.truthy iso = true.
Proof. destruct iso; [discriminate | reflexivity]. Qed.

Lemma year_text_four_digits y :
  (1000 <= y)%Z -> Fmt.year_text y = Fmt.pad4 y.
Proof.
  intros B. unfold Fmt.year_text.
  destruct (Z.ltb_spec y 10); [lia|].
  destruct (Z.ltb_spec y 100); [lia|].
  destruct (Z.ltb_spec y 1000); [lia | reflexivity].
Qed.

(** C7 (amended): for whatever [fromisoformat] and [strftime] answer, the
    display timestamp of a record is: the date/time value formatted by
    [strftime("%Y-%m-%d %H:%M")] when [pubdate_iso] is present, not empty,
    and parses back to that value; [pubdate_iso] itself when it is present,
    not empty, and does not parse back; otherwise [pubdate_raw], which may
    be empty.  The format is [YYYY-MM-DD HH:MM] for the years from 1000 on
    (the year is not padded), and ["2024-03-14T10:05:00+02:00"], which
    parses back to 10:05 on 14 March 2024 at +02:00, is shown as
    ["2024-03-14 10:05"]. *)
Theorem display_timestamp_cases :
  forall (parse : string -> option datetime) (fmt : datetime -> string),
    (forall it iso dt,
        q_pubdate_iso it = Some iso -> iso <> "" -> parse iso = Some dt ->
        display_timestamp_with parse fmt it = fmt dt)
    /\ (forall it iso,
           q_pubdate_iso it = Some iso -> iso <> "" -> parse iso = None ->
           display_timestamp_with parse fmt it = iso)
    /\ (forall it,
           q_pubdate_iso it = None \/ q_pubdate_iso it = Some "" ->
           display_timestamp_with parse fmt it = q_pubdate_raw it)
    /\ (forall dt,
           (1000 <= dt_year dt)%Z ->
           strftime_ymd_hm dt
           = Fmt.pad4 (dt_year dt) ++ "-" ++ Fmt.pad2 (dt_month dt) ++ "-"
             ++ Fmt.pad2 (dt_day dt) ++ " " ++ Fmt.pad2 (dt_hour dt) ++ ":"
             ++ Fmt.pad2 (dt_minute dt))
    /\ (forall t l c raw,
           parse "2024-03-14T10:05:00+02:00" = Some sample_datetime ->
           display_timestamp_with parse strftime_ymd_hm
             (MkRec t l c (Some "2024-03-14T10:05:00+02:00") raw)
           = "2024-03-14 10:05")
    /\ Iso.fromisoformat "2024-03-14T10:05:00+02:00" = Some sample_datetime
    /\ (forall t l c raw,
           display_timestamp
             (MkRec t l c (Some "2024-03-14T10:05:00+02:00") raw)
           = "2024-03-14 10:05").
Proof.
  intros parse fmt.
  assert (T : forall iso, iso <> "" -> Str.truthy iso = true)
    by (intros [|c r] N; [now contradiction N | reflexivity]).
  split; [|split; [|split; [|split; [|split; [|split]]]]].
  - intros it iso dt E N P. unfold display_timestamp_with. rewrite E.
    cbn [opt_truthy text_or_empty]. now rewrite (T iso N), P.
  - intros it iso E N P. unfold display_timestamp_with. rewrite E.
    cbn [opt_truthy text_or_empty]. now rewrite (T iso N), P.
  - intros it [E | E]; unfold display_timestamp_with; rewrite E;
      cbn [opt_truthy text_or_empty Str.truthy];
      now destruct (q_pubdate_raw it).
  - intros dt B. unfold strftime_ymd_hm.
    now rewrite (year_text_four_digits _ B).
  - intros t l c raw P. unfold display_timestamp_with.
    cbn [q_pubdate_iso opt_truthy text_or_empty Str.truthy]. now rewrite P.
  - reflexivity.
  - intros t l c raw. reflexivity.
Qed.

Lemma occurs_app c a b : occurs c (a ++ b) = occurs c a || occurs c b.
Proof.
  induction a as [|x a IH]; simpl; [reflexivity|].
  now rewrite IH, orb_assoc.
Qed.

Lemma escape_char_clean c :
  occurs lt (escape_char c) = false /\ occurs gt (escape_char c) = false
  /\ occurs dquote (escape_char c) = false
  /\ occurs squote (escape_char c) = false.
Proof.
  destruct c as [[] [] [] [] [] [] [] []]; repeat split; reflexivity.
Qed.

Lemma html_escape_clean s :
  occurs lt (html_escape s) = false /\ occurs gt (html_escape s) = false
  /\ occurs dquote (html_escape s) = false
  /\ occurs squote (html_escape s) = false.
Proof.
  induction s as [|c s [A [B [C D]]]]; simpl; [repeat split; reflexivity|].
  destruct (escape_char_clean c) as [A' [B' [C' D']]].
  rewrite !occurs_app, A, B, C, D, A', B', C', D'. repeat split; reflexivity.
Qed.

Lemma html_escape_app a b :
  html_escape (a ++ b) = html_escape a ++ html_escape b.
Proof.
  induction a as [|c a IH]; simpl; [reflexivity|].
  now rewrite IH, append_assoc.
Qed.

(** A text in which a character does not occur contains no string that
    starts with it. *)
Lemma contains_needs_head c needle s :
  occurs c s = false -> Str.contains s (String c needle) = false.
Proof.
  induction s as [|d s IH]; intros O; [reflexivity|].
  simpl in O. apply orb_false_iff in O. destruct O as [O1 O2].
  cbn [Str.contains Str.startswith]. rewrite O1. simpl. now apply IH.
Qed.

(** C8: in the article block of every record the title, the link and the
    category stand in their escaped form: the block is its fixed text with
    [html_escape] of the link, of the title and of the category in the
    holes.  An escaped text holds none of the characters [<], [>] and the
    two quotes, so a title with [<script>] in it never puts [<script>] into
    the block: it is written as [&lt;script&gt;]. *)
Theorem render_escapes_fields :
  (forall it,
      news_block it
      = block_open ++ html_escape (q_link it)
        ++ block_after_link ++ html_escape (q_title it)
        ++ block_after_title ++ html_escape (q_category it)
        ++ " | " ++ display_timestamp it ++ block_close)
  /\ (forall s,
         occurs lt (html_escape s) = false /\ occurs gt (html_escape s) = false
         /\ occurs dquote (html_escape s) = false
         /\ occurs squote (html_escape s) = false)
  /\ (forall s, Str.contains (html_escape s) "<script>" = false)
  /\ (forall a b,
         html_escape (a ++ "<script>" ++ b)
         = html_escape a ++ "&lt;script&gt;" ++ html_escape b)
  /\ (let page :=
        render_news_html "<body>{{news_list}}</body>" sample_datetime
          (dt_date sample_datetime) [script_rec] in
      Str.contains page "<script>" = false
      /\ Str.contains page "&lt;script&gt;alert(&#x27;x&#x27;)&lt;/script&gt;"
         = true).
Proof.
  split; [|split; [|split; [|split]]].
  - intros it. unfold news_block, block_open, block_after_link,
      block_after_title, block_close.
    repeat (rewrite ?append_assoc; cbn [append]). reflexivity.
  - exact html_escape_clean.
  - intros s. apply contains_needs_head.
    now destruct (html_escape_clean s) as [A _].
  - intros a b. now rewrite !html_escape_app.
  - vm_compute. split; reflexivity.
Qed.

(** ** Running the pipeline twice *)

(** When every link is already stored the loop inserts nothing. *)
Lemma save_loop_all_present clock items :
  forall k t added,
    (forall it, In it items -> In (link it) (links t)) ->
    save_loop clock k items t added = (t, added).
Proof.
  induction items as [|it items IH]; intros k t added H; simpl; [reflexivity|].
  rewrite (proj2 (sql_insert_none t it _) (H it (or_introl eq_refl))).
  apply IH. intros x Hx. apply H. now right.
Qed.

(** After the loop every link of its input is stored, and so is every link
    that was stored before. *)
Lemma save_loop_links clock items :
  forall k t added,
    (forall l, In l (links t) ->
               In l (links (fst (save_loop clock k items t added))))
    /\ (forall it, In it items ->
                   In (link it) (links (fst (save_loop clock k items t added)))).
Proof.
  induction items as [|it items IH]; intros k t added; simpl.
  - split; [auto | intros it []].
  - destruct (sql_insert t it _) as [t'|] eqn:E.
    + destruct (IH (S k) t' (added ++ [it])%list) as [Hold Hnew].
      apply sql_insert_some in E. destruct E as [_ E].
      assert (Hin : forall l, In l (links t) \/ l = link it -> In l (links t')).
      { intros l Hl. rewrite E, links_snoc. apply in_or_app.
        destruct Hl as [Hl | ->]; [now left | right; now left]. }
      split.
      * intros l Hl. apply Hold, Hin. now left.
      * intros x [<- | Hx]; [|now apply Hnew].
        apply Hold, Hin. now right.
    + destruct (IH (S k) t added) as [Hold Hnew].
      apply sql_insert_none in E.
      split; [exact Hold|].
      intros x [<- | Hx]; [now apply Hold | now apply Hnew].
Qed.

Lemma save_new_to_db_again clock1 clock2 items t :
  save_new_to_db clock2 items (fst (save_new_to_db clock1 items t))
  = (fst (save_new_to_db clock1 items t), []).
Proof.
  unfold save_new_to_db. apply save_loop_all_present.
  apply (save_loop_links clock1 items 0 t []).
Qed.

(** C4, as stated, fails: over the same feed a run on the next day inserts
    an item dated that day, and the query for that day returns one record
    more. *)
Lemma main_second_run_claim_fails :
  ~ (forall (lib : PyLib) (env1 env2 : Env) (w : World),
        rss_response env1 = rss_response env2 ->
        inserted (snd (main env2 (fst (main env1 w)))) = 0%nat
        /\ query_db_for_date (dt_date (clock_today env2))
             (init_db (db (fst (main env2 (fst (main env1 w))))))
           = query_db_for_date (dt_date (clock_today env2))
               (init_db (db (fst (main env1 w))))).
Proof.
  intros claim.
  destruct (claim sample_lib sample_env_eve sample_env sample_world eq_refl)
    as [Z _].
  vm_compute in Z. discriminate Z.
Qed.

(** C4 (amended): a second run over the same feed on the same calendar day ends the
    way the first did, inserts no record and leaves the table as the first
    run left it, so [query_db_for_date] returns for every date, the day of
    the runs among them, the records it returned after the first run.  A
    run on another day is not covered: it may insert. *)
Theorem main_second_run_inserts_nothing :
  forall (lib : PyLib) (env1 env2 : Env) (w : World),
    rss_response env1 = rss_response env2 ->
    dt_date (clock_today env1) = dt_date (clock_today env2) ->
    let w1 := fst (main env1 w) in
    let w2 := fst (main env2 w1) in
    inserted (snd (main env2 w1)) = 0%nat
    /\ db w2 = db w1
    /\ (forall D,
           query_db_for_date D (init_db (db w2))
           = query_db_for_date D (init_db (db w1)))
    /\ snd (main env2 w1)
       = match snd (main env1 w) with
         | Done n_items n_todays _ n_db path => Done n_items n_todays 0 n_db path
         | stopped => stopped
         end.
Proof.
  intros lib env1 env2 w Hrss Hday.
  assert (Core :
    db (fst (main env2 (fst (main env1 w)))) = db (fst (main env1 w))
    /\ snd (main env2 (fst (main env1 w)))
       = match snd (main env1 w) with
         | Done n_items n_todays _ n_db path => Done n_items n_todays 0 n_db path
         | stopped => stopped
         end).
  { unfold main. rewrite <- Hrss, <- Hday. cbn [template db news_files].
    destruct (template w) as [tpl|]; [|split; reflexivity].
    destruct (rss_response env1) as [xml|]; [|split; reflexivity].
    destruct (parse_rss xml) as [items|]; [|split; reflexivity].
    set (today := dt_date (clock_today env1)).
    set (todays := filter_news items (Some today) None).
    set (t := init_db (db w)).
    destruct (save_new_to_db (clock_insert env1) todays t) as [t1 added1] eqn:S1.
    cbn [write_news_file fst snd template db news_files init_db].
    assert (S2 : save_new_to_db (clock_insert env2) todays t1 = (t1, [])).
    { pose proof (save_new_to_db_again (clock_insert env1) (clock_insert env2)
                    todays t) as A.
      now rewrite S1 in A. }
    rewrite S2. cbn [write_news_file fst snd template db news_files].
    split; reflexivity. }
  destruct Core as [Hdb Hout]. cbv zeta.
  split; [|split; [assumption|split; [|assumption]]].
  - rewrite Hout. now destruct (snd (main env1 w)).
  - intros D. now rewrite Hdb.
Qed.

(** On the sample feed the first run of the day inserts three records and
    a later run of that day none. *)
Lemma main_second_run_inserts_nothing_witness :
  inserted (snd (@main sample_lib sample_env sample_world)) = 3%nat
  /\ inserted (snd (@main sample_lib sample_env_later
                      (fst (@main sample_lib sample_env sample_world)))) = 0%nat.
Proof.
  split; [vm_compute; reflexivity|].
  refine (proj1 (main_second_run_inserts_nothing sample_lib sample_env
                   sample_env_later sample_world _ _)); reflexivity.
Defined.

(* ================================================================== *)
(** * Further properties of the code *)

(** ** [filter_news]: the two tests together *)

Lemma filter_ok_split d c it :
  filter_ok d c it = filter_ok d None it && filter_ok None c it.
Proof.
  unfold filter_ok.
  destruct d as [D|]; [destruct (pubdate_dt it) as [dt|]|];
    try (destruct (negb (date_eqb (dt_date dt) D)));
    destruct c as [[|x xs]|]; try reflexivity;
    destruct (Str.truthy (category it)); try reflexivity;
    destruct (negb (Str.mem (category it) (x :: xs))); reflexivity.
Qed.

Lemma filter_twice (A : Type) (p q : A -> bool) (l : list A) :
  filter q (filter p l) = filter (fun x => p x && q x) l.
Proof.
  induction l as [|x l IH]; simpl; [reflexivity|].
  destruct (p x); simpl; [destruct (q x)|]; now rewrite IH.
Qed.

Lemma filter_length_le (A : Type) (p : A -> bool) (l : list A) :
  (List.length (filter p l) <= List.length l)%nat.
Proof.
  induction l as [|x l IH]; simpl; [lia|]. destruct (p x); simpl; lia.
Qed.

(** X1: without a date and without categories [filter_news] returns its
    input unchanged, and an empty category list filters nothing: it is the
    same as no category list, whatever the date filter. *)
Theorem filter_news_no_filter :
  forall (items : list Item) (d : option date),
    filter_news items None None = items
    /\ filter_news items d (Some []) = filter_news items d None.
Proof.
  intros items d. rewrite !filter_news_filter. split.
  - induction items as [|it items IH]; simpl; [reflexivity | now rewrite IH].
  - apply filter_ext. intros it. unfold filter_ok.
    destruct d as [D|]; [destruct (pubdate_dt it)|]; reflexivity.
Qed.

(** X2: the two tests of [filter_news] are applied independently: filtering
    by date and categories at once is filtering by date and then by
    categories, or the other way round.  Filtering a result again with the
    same arguments changes nothing, and a result is never longer than the
    input and holds only items of the input. *)
Theorem filter_news_composes :
  forall (items : list Item) (d : option date) (c : option (list string)),
    filter_news items d c = filter_news (filter_news items d None) None c
    /\ filter_news items d c = filter_news (filter_news items None c) d None
    /\ filter_news (filter_news items d c) d c = filter_news items d c
    /\ (List.length (filter_news items d c) <= List.length items)%nat
    /\ (forall it, In it (filter_news items d c) -> In it items).
Proof.
  intros items d c. rewrite !filter_news_filter.
  split; [|split; [|split; [|split]]].
  - rewrite filter_twice. apply filter_ext. intros it. apply filter_ok_split.
  - rewrite filter_twice. apply filter_ext. intros it.
    rewrite (filter_ok_split d c). apply andb_comm.
  - rewrite filter_twice. apply filter_ext. intros it.
    now destruct (filter_ok d c it).
  - apply filter_length_le.
  - intros it H. now apply filter_In in H.
Qed.

(** ** [get_child_text] and the stripped fields *)

(** X3: [get_child_text] returns the text of the first child, in document
    order, whose tag matches the name; children after it are not looked at,
    and a matching child without text gives the empty string. *)
Theorem get_child_text_first_match :
  forall (tg : string) (tx : option string) (pre post : list Element)
         (c : Element) (name : string),
    (forall x, In x pre -> _tag_endswith (tag x) name = false) ->
    _tag_endswith (tag c) name = true ->
    get_child_text (Elem tg tx (pre ++ c :: post)) name = text_or_empty (text c).
Proof.
  intros tg tx pre post c name Hpre Hc. unfold get_child_text. simpl.
  induction pre as [|x pre IH]; simpl.
  - now rewrite Hc.
  - rewrite (Hpre x (or_introl eq_refl)). apply IH.
    intros y Hy. apply Hpre. now right.
Qed.

(** In the shuffled entry the namespaced [Title] without text comes before
    the plain [title]: the title read is empty. *)
Lemma get_child_text_first_match_witness :
  get_child_text shuffled_entry "title" = "".
Proof.
  refine (get_child_text_first_match "item" _ [Elem "guid" (Some "g-1") []]
            [Elem "title" (Some "second title") [];
             Elem "LINK" (Some "  http://example.org/x  ") []]
            (Elem "{http://example.org/ns}Title" None []) "title" _ _).
  - intros x [<- | []]. reflexivity.
  - reflexivity.
Defined.

Lemma lstrip_head_upto n :
  forall s, (String.length s <= n)%nat ->
            starts_with_space (Str.lstrip s) = false.
Proof.
  induction n as [|n IH]; intros s L.
  - destruct s; [reflexivity | simpl in L; lia].
  - destruct s as [|a [|b [|c r]]]; cbn [Str.lstrip].
    + reflexivity.
    + destruct (Str.isspace a) eqn:Ea; [reflexivity|].
      cbn [starts_with_space]. now rewrite Ea.
    + destruct (Str.isspace a) eqn:Ea;
        [exact (IH (String b "") ltac:(simpl in *; lia))|].
      destruct (Str.isspace2 a b) eqn:Eb; [reflexivity|].
      cbn [starts_with_space]. now rewrite Ea, Eb.
    + destruct (Str.isspace a) eqn:Ea;
        [exact (IH (String b (String c r)) ltac:(simpl in *; lia))|].
      destruct (Str.isspace2 a b) eqn:Eb;
        [exact (IH (String c r) ltac:(simpl in *; lia))|].
      destruct (Str.isspace3 a b c) eqn:Ec;
        [exact (IH r ltac:(simpl in *; lia))|].
      cbn [starts_with_space]. now rewrite Ea, Eb, Ec.
Qed.

Lemma lstrip_head s : starts_with_space (Str.lstrip s) = false.
Proof. now apply (lstrip_head_upto (String.length s)). Qed.

Lemma lstrip_fixed s : starts_with_space s = false -> Str.lstrip s = s.
Proof.
  destruct s as [|a [|b [|c r]]]; cbn [starts_with_space]; intros H.
  - reflexivity.
  - apply orb_false_iff in H. destruct H as [Ea _].
    cbn [Str.lstrip]. now rewrite Ea.
  - apply orb_false_iff in H. destruct H as [Ea H].
    apply orb_false_iff in H. destruct H as [Eb _].
    change (Str.lstrip (String a (String b "")))
      with (if Str.isspace a then Str.lstrip (String b "")
            else if Str.isspace2 a b then Str.lstrip ""
                 else String a (String b "")).
    now rewrite Ea, Eb.
  - apply orb_false_iff in H. destruct H as [Ea H].
    apply orb_false_iff in H. destruct H as [Eb Ec].
    change (Str.lstrip (String a (String b (String c r))))
      with (if Str.isspace a then Str.lstrip (String b (String c r))
            else if Str.isspace2 a b then Str.lstrip (String c r)
                 else if Str.isspace3 a b c then Str.lstrip r
                      else String a (String b (String c r))).
    now rewrite Ea, Eb, Ec.
Qed.

(** What [rstrip] cuts off is white space only. *)
Lemma rstrip_split s :
  exists tail, s = Str.rstrip s ++ tail /\ Str.all_space tail = true.
Proof.
  induction s as [|c s [tail [E A]]].
  - now exists "".
  - cbn [Str.rstrip]. destruct (Str.all_space (String c s)) eqn:All.
    + now exists (String c s).
    + exists tail. split; [|exact A]. cbn [append]. now rewrite <- E.
Qed.

Lemma one_space_then_all_space w tail :
  is_one_space w = true -> Str.all_space tail = true ->
  Str.all_space (w ++ tail) = true.
Proof.
  destruct w as [|a [|b [|c [|d w]]]]; cbn [is_one_space]; try discriminate;
    intros W A; cbn [append Str.all_space].
  - now rewrite W.
  - destruct (Str.isspace a) eqn:Ea.
    + (* a one-byte space followed by a byte that the pair test accepts *)
      unfold Str.isspace2 in W. unfold Str.isspace in Ea.
      apply andb_true_iff in W. destruct W as [W _].
      apply Nat.eqb_eq in W. rewrite W in Ea. discriminate Ea.
    + destruct tail; now rewrite W.
  - destruct (Str.isspace a) eqn:Ea.
    + unfold Str.isspace3 in W. unfold Str.isspace in Ea.
      destruct (Nat.eqb_spec (nat_of_ascii a) 225) as [Q|_];
        [rewrite Q in Ea; discriminate Ea|].
      destruct (Nat.eqb_spec (nat_of_ascii a) 226) as [Q|_];
        [rewrite Q in Ea; discriminate Ea|].
      destruct (Nat.eqb_spec (nat_of_ascii a) 227) as [Q|_];
        [rewrite Q in Ea; discriminate Ea|].
      discriminate W.
    + destruct (Str.isspace2 a b) eqn:Eb.
      * unfold Str.isspace3 in W. unfold Str.isspace2 in Eb.
        apply andb_true_iff in Eb. destruct Eb as [Q _].
        apply Nat.eqb_eq in Q. rewrite Q in W. discriminate W.
      * now rewrite W, A.
Qed.

Lemma rstrip_tail s : ends_with_space (Str.rstrip s) = false.
Proof.
  induction s as [|c s IH]; [reflexivity|].
  cbn [Str.rstrip]. destruct (Str.all_space (String c s)) eqn:All;
    [reflexivity|].
  cbn [ends_with_space]. rewrite IH, orb_false_r.
  destruct (is_one_space (String c (Str.rstrip s))) eqn:One; [|reflexivity].
  destruct (rstrip_split s) as [tail [E A]].
  pose proof (one_space_then_all_space _ tail One A) as C.
  cbn [append] in C. rewrite <- E in C. congruence.
Qed.

Lemma starts_with_space_app p r :
  starts_with_space p = true -> starts_with_space (p ++ r) = true.
Proof.
  destruct p as [|a [|b [|c p]]]; cbn [starts_with_space append];
    try discriminate; intros H.
  - rewrite orb_false_r in H. now rewrite H.
  - rewrite orb_false_r in H. apply orb_true_iff in H.
    destruct H as [-> | H]; [reflexivity|].
    destruct r; rewrite H; cbn [orb]; apply orb_true_r.
  - exact H.
Qed.

Lemma rstrip_head s :
  starts_with_space s = false -> starts_with_space (Str.rstrip s) = false.
Proof.
  intros H. destruct (starts_with_space (Str.rstrip s)) eqn:R; [|reflexivity].
  destruct (rstrip_split s) as [tail [E _]].
  apply (starts_with_space_app _ tail) in R. rewrite <- E in R. congruence.
Qed.

Lemma ends_with_space_app a u :
  ends_with_space u = true -> ends_with_space (a ++ u) = true.
Proof.
  intros H. induction a as [|c a IH]; [exact H|].
  cbn [append ends_with_space]. rewrite IH. apply orb_true_r.
Qed.

Lemma append_empty s : s ++ "" = s.
Proof. induction s as [|c s IH]; cbn [append]; [reflexivity | now rewrite IH]. Qed.

Lemma all_space_ends_upto n :
  forall u, (String.length u <= n)%nat -> u <> "" ->
            Str.all_space u = true -> ends_with_space u = true.
Proof.
  induction n as [|n IH]; intros u L N A.
  - destruct u; [now contradiction N | simpl in L; lia].
  - assert (Step : forall w rest,
               u = w ++ rest -> is_one_space w = true ->
               (String.length rest <= n)%nat ->
               Str.all_space rest = true -> ends_with_space u = true).
    { intros w rest -> W Lr Ar. destruct rest as [|x rest].
      - rewrite append_empty.
        destruct w as [|a w]; [discriminate W|].
        cbn [ends_with_space]. now rewrite W.
      - apply ends_with_space_app. apply IH; [exact Lr | discriminate | exact Ar]. }
    destruct u as [|a [|b [|c r]]]; cbn [Str.all_space] in A.
    + now contradiction N.
    + destruct (Str.isspace a) eqn:Ea; [|discriminate A].
      cbn [ends_with_space is_one_space]. now rewrite Ea.
    + destruct (Str.isspace a) eqn:Ea.
      * apply (Step (String a "") (String b "")); try reflexivity;
          [exact Ea | simpl in *; lia | exact A].
      * destruct (Str.isspace2 a b) eqn:Eb; [|discriminate A].
        cbn [ends_with_space is_one_space]. now rewrite Eb.
    + destruct (Str.isspace a) eqn:Ea.
      * apply (Step (String a "") (String b (String c r))); try reflexivity;
          [exact Ea | simpl in *; lia | exact A].
      * destruct (Str.isspace2 a b) eqn:Eb.
        -- apply (Step (String a (String b "")) (String c r)); try reflexivity;
             [exact Eb | simpl in *; lia | exact A].
        -- apply andb_true_iff in A. destruct A as [Ec A].
           apply (Step (String a (String b (String c ""))) r); try reflexivity;
             [exact Ec | simpl in *; lia | exact A].
Qed.

Lemma rstrip_fixed s : ends_with_space s = false -> Str.rstrip s = s.
Proof.
  induction s as [|c s IH]; [reflexivity|].
  intros E. cbn [Str.rstrip].
  destruct (Str.all_space (String c s)) eqn:All.
  - rewrite (all_space_ends_upto (String.length (String c s)) (String c s))
      in E; [discriminate E | lia | discriminate | exact All].
  - cbn [ends_with_space] in E. apply orb_false_iff in E.
    destruct E as [_ E]. now rewrite (IH E).
Qed.

Example strip_unicode_space :
  Str.strip "  http://example.org/y " = "http://example.org/y".
Proof. reflexivity. Qed.

Lemma strip_stripped s : stripped (Str.strip s).
Proof.
  unfold stripped, Str.strip.
  assert (H : starts_with_space (Str.rstrip (Str.lstrip s)) = false)
    by apply rstrip_head, lstrip_head.
  assert (T : ends_with_space (Str.rstrip (Str.lstrip s)) = false)
    by apply rstrip_tail.
  split; [exact H|]. split; [exact T|].
  now rewrite (lstrip_fixed _ H), (rstrip_fixed _ T).
Qed.

(** X4: the link, the category and the raw publish date of every parsed
    item are stripped: none begins or ends with white space, and stripping
    one again changes nothing. *)
Theorem parsed_fields_stripped :
  forall (lib : PyLib) (root : Element),
    Forall (fun it => stripped (link it) /\ stripped (category it)
                      /\ stripped (pubdate_raw it))
           (parse_root root).
Proof.
  intros lib root. rewrite parse_root_filter.
  apply Forall_forall. intros it Hit.
  apply in_map_iff in Hit. destruct Hit as [e [<- _]].
  unfold item_of_element. destruct (parse_pubdate _) as [iso dt]. simpl.
  repeat split; apply strip_stripped.
Qed.

(** ** More on the store *)

(** A property of the table that every successful [INSERT] keeps is kept by
    the whole loop. *)
Lemma save_loop_invariant (P : Table -> Prop) clock :
  (forall t it now t', P t -> sql_insert t it now = Some t' -> P t') ->
  forall items k t added,
    P t -> P (fst (save_loop clock k items t added)).
Proof.
  intros Step. induction items as [|it items IH]; intros k t added Pt; simpl.
  - exact Pt.
  - destruct (sql_insert t it _) as [t'|] eqn:E.
    + apply IH. eapply Step; eassumption.
    + now apply IH.
Qed.

(** The loop appends rows and returned items in step: the k-th new row holds
    the columns of the k-th returned item. *)
Lemma save_loop_extends clock items :
  forall k t added,
    exists fresh new,
      save_loop clock k items t added
      = (MkTable (rows t ++ fresh) (last_id t + Z.of_nat (List.length fresh)),
         (added ++ new)%list)
      /\ Forall2 row_holds new fresh.
Proof.
  induction items as [|it items IH]; intros k t added; simpl.
  - exists [], []. rewrite !app_nil_r, Z.add_0_r. destruct t.
    split; [reflexivity | constructor].
  - destruct (sql_insert t it _) as [t'|] eqn:E.
    + apply sql_insert_some in E. destruct E as [_ ->].
      match goal with
      | |- context [save_loop _ _ _ (MkTable (_ ++ [?row]) _) _] =>
          set (r := row)
      end.
      destruct (IH (S k) (MkTable (rows t ++ [r]) (last_id t + 1))
                  (added ++ [it])%list) as [fresh [new [Eq F]]].
      exists (r :: fresh), (it :: new). rewrite Eq. simpl rows. simpl last_id.
      rewrite <- !app_assoc. simpl. split.
      * f_equal. f_equal. lia.
      * constructor; [|exact F]. unfold row_holds, r. simpl. tauto.
    + destruct (IH (S k) t added) as [fresh [new [Eq F]]].
      exists fresh, new. now rewrite Eq.
Qed.

Lemma save_new_to_db_extends clock items t :
  exists fresh,
    fst (save_new_to_db clock items t)
    = MkTable (rows t ++ fresh) (last_id t + Z.of_nat (List.length fresh))
    /\ Forall2 row_holds (snd (save_new_to_db clock items t)) fresh.
Proof.
  unfold save_new_to_db.
  destruct (save_loop_extends clock items 0 t []) as [fresh [new [Eq F]]].
  exists fresh. rewrite Eq. simpl. now split.
Qed.

Lemma Forall2_In_l (A B : Type) (R : A -> B -> Prop) (l : list A) (m : list B) :
  Forall2 R l m -> forall x, In x l -> exists y, In y m /\ R x y.
Proof.
  induction 1 as [|a b l m Rab F IH]; intros x Hx; [destruct Hx|].
  destruct Hx as [<- | Hx].
  - exists b. split; [now left | assumption].
  - destruct (IH x Hx) as [y [Hy Rxy]]. exists y. split; [now right | assumption].
Qed.

Lemma ids_ok_insert t it now t' :
  ids_ok t -> sql_insert t it now = Some t' -> ids_ok t'.
Proof.
  intros [S B] E. apply sql_insert_some in E. destruct E as [_ ->].
  unfold ids_ok. simpl. split.
  - rewrite map_app. simpl.
    clear - S B. induction (rows t) as [|r rs IH]; simpl.
    + repeat constructor.
    + simpl in S. apply StronglySorted_inv in S. destruct S as [S Hr].
      apply Forall_cons_iff in B. destruct B as [Br B].
      constructor; [now apply IH|].
      apply Forall_app. split; [assumption|].
      constructor; [lia | constructor].
  - apply Forall_app. split.
    + eapply Forall_impl; [|exact B]. simpl. intros r Hr. lia.
    + constructor; [simpl; lia | constructor].
Qed.

(** X5: the ids of the rows are handed out in increasing order and never
    twice: when they grow with the insertion order and stay below the
    counter, they still do after [save_new_to_db], every row the call adds
    has an id above the old counter, and the counter moves by the number of
    rows added, so a refused insert uses no id. *)
Theorem save_new_to_db_ids :
  forall (clock : nat -> datetime) (items : list Item) (t : Table),
    ids_ok t ->
    let t' := fst (save_new_to_db clock items t) in
    ids_ok t'
    /\ NoDup (map r_id (rows t'))
    /\ (forall r, In r (rows t') ->
                  In r (rows t) \/ (last_id t < r_id r <= last_id t')%Z)
    /\ last_id t'
       = (last_id t
          + Z.of_nat (List.length (snd (save_new_to_db clock items t))))%Z.
Proof.
  intros clock items t Ok. cbv zeta.
  assert (Ok' : ids_ok (fst (save_new_to_db clock items t))).
  { unfold save_new_to_db.
    apply (save_loop_invariant ids_ok clock); [|exact Ok].
    intros t0 it now t1 H0 E. exact (ids_ok_insert t0 it now t1 H0 E). }
  split; [exact Ok'|]. split; [|split].
  - destruct Ok' as [S _].
    clear - S. induction S as [|a l S IH Ha]; constructor; [|exact IH].
    intros Hin. rewrite Forall_forall in Ha. specialize (Ha a Hin). lia.
  - unfold save_new_to_db.
    apply (save_loop_invariant
             (fun t' => (last_id t <= last_id t')%Z
                        /\ forall r, In r (rows t') ->
                             In r (rows t)
                             \/ (last_id t < r_id r <= last_id t')%Z) clock).
    + intros t0 it now t1 [L H0] E.
      apply sql_insert_some in E. destruct E as [_ ->]. simpl.
      split; [lia|]. intros r Hr. apply in_app_or in Hr.
      destruct Hr as [Hr | [<- | []]].
      * destruct (H0 r Hr) as [Hold | Hnew]; [now left | right; lia].
      * right. simpl. lia.
    + split; [lia | intros r Hr; now left].
  - destruct (save_new_to_db_extends clock items t) as [fresh [Eq F]].
    rewrite Eq. simpl. f_equal. f_equal.
    symmetry. exact (Forall2_length F).
Qed.

Lemma save_new_to_db_ids_witness :
  ids_ok (fst (save_new_to_db sample_clock sample_batch empty_table)).
Proof.
  refine (proj1 (save_new_to_db_ids sample_clock sample_batch empty_table _)).
  split; constructor.
Defined.

Lemma save_loop_first_wins clock pre it post :
  forall k t added,
    ~ In (link it) (links t) ->
    (forall x, In x pre -> link x <> link it) ->
    exists id,
      In (row_of_item id it
            (isoformat_seconds "T" (clock (k + List.length pre)%nat)))
         (rows (fst (save_loop clock k (pre ++ it :: post) t added)))
      /\ In it (snd (save_loop clock k (pre ++ it :: post) t added)).
Proof.
  induction pre as [|x pre IH]; intros k t added Hnew Hpre.
  - simpl. rewrite Nat.add_0_r.
    unfold sql_insert at 1 2. rewrite (proj2 (has_link_false t (link it)) Hnew).
    match goal with
    | |- context [save_loop _ _ _ ?tab ?acc] =>
        destruct (save_loop_extends clock post (S k) tab acc)
          as [fresh [new [Eq _]]]
    end.
    rewrite Eq. simpl. exists (last_id t + 1)%Z. split.
    + apply in_or_app. left. apply in_or_app. right. now left.
    + apply in_or_app. left. apply in_or_app. right. now left.
  - simpl. replace (k + S (List.length pre))%nat
      with (S k + List.length pre)%nat by lia.
    assert (Hpre' : forall y, In y pre -> link y <> link it)
      by (intros y Hy; apply Hpre; now right).
    destruct (sql_insert t x _) as [t'|] eqn:E.
    + apply IH; [|exact Hpre'].
      apply sql_insert_some in E. destruct E as [_ ->].
      rewrite links_snoc. intros Hin. apply in_app_or in Hin.
      destruct Hin as [Hin | [Hin | []]]; [now apply Hnew|].
      simpl in Hin. apply (Hpre x (or_introl eq_refl)). exact Hin.
    + now apply IH.
Qed.

Lemma NoDup_map_same (A B : Type) (f : A -> B) (l : list A) :
  NoDup (map f l) ->
  forall a b, In a l -> In b l -> f a = f b -> a = b.
Proof.
  induction l as [|x l IH]; simpl; intros N a b Ha Hb E; [contradiction|].
  apply NoDup_cons_iff in N. destruct N as [Nx N].
  destruct Ha as [<- | Ha], Hb as [<- | Hb].
  - reflexivity.
  - exfalso. apply Nx. rewrite E. now apply in_map.
  - exfalso. apply Nx. rewrite <- E. now apply in_map.
  - now apply IH.
Qed.

(** X6: the first item of a batch that carries a link not yet stored is the
    one recorded: its row holds its link, title, category, ISO date and raw
    date as they are, stamped with the clock reading of its own turn of the
    loop; the item is returned; and no other row has that link, so what a
    later item with the same link says is not stored. *)
Theorem save_new_to_db_first_wins :
  forall (clock : nat -> datetime) (pre post : list Item) (it : Item)
         (t : Table),
    links_unique t ->
    ~ In (link it) (links t) ->
    (forall x, In x pre -> link x <> link it) ->
    let result := save_new_to_db clock (pre ++ it :: post) t in
    exists id,
      In (row_of_item id it
            (isoformat_seconds "T" (clock (List.length pre))))
         (rows (fst result))
      /\ In it (snd result)
      /\ (forall r, In r (rows (fst result)) -> r_link r = link it ->
                    r = row_of_item id it
                          (isoformat_seconds "T" (clock (List.length pre)))).
Proof.
  intros clock pre post it t U Hnew Hpre. cbv zeta.
  pose proof (save_new_to_db_unique clock (pre ++ it :: post) t U) as U'.
  unfold save_new_to_db in *.
  destruct (save_loop_first_wins clock pre it post 0 t [] Hnew Hpre)
    as [id [Hrow Hadded]].
  simpl in Hrow. exists id. split; [exact Hrow|]. split; [exact Hadded|].
  intros r Hr El.
  apply (NoDup_map_same _ _ r_link _ U' r _ Hr Hrow). exact El.
Qed.

(** In the sample batch the first item comes before its retitled version:
    the row stored is the first one's. *)
Lemma save_new_to_db_first_wins_witness :
  exists id,
    In (row_of_item id first_item (isoformat_seconds "T" (sample_clock 1)))
       (rows (fst (save_new_to_db sample_clock sample_batch empty_table))).
Proof.
  destruct (save_new_to_db_first_wins sample_clock [other_item]
              [first_item_retitled] first_item empty_table)
    as [id [H _]].
  - constructor.
  - intros [].
  - intros x [<- | []]. discriminate.
  - exists id. exact H.
Defined.

Lemma query_In D t q :
  In q (query_db_for_date D t)
  <-> exists r, In r (rows t) /\ iso_date_is D r = true /\ q = rec_of_row r.
Proof.
  rewrite query_db_for_date_eq, in_map_iff. split.
  - intros [r [<- Hr]].
    apply (Permutation_in _ (order_by_iso_desc_perm _)) in Hr.
    apply filter_In in Hr. destruct Hr as [Hr Hd]. now exists r.
  - intros [r [Hr [Hd ->]]]. exists r. split; [reflexivity|].
    apply (Permutation_in _ (Permutation_sym (order_by_iso_desc_perm _))).
    apply filter_In. now split.
Qed.

Lemma query_incl_after_save clock items t D q :
  In q (query_db_for_date D t) ->
  In q (query_db_for_date D (fst (save_new_to_db clock items t))).
Proof.
  intros Hq.
  apply query_In in Hq. destruct Hq as [r [Hr [Hd ->]]].
  apply query_In. exists r. split; [|now split].
  destruct (save_new_to_db_extends clock items t) as [fresh [Eq _]].
  rewrite Eq. simpl. apply in_or_app. now left.
Qed.

(** X7: saving never takes a record out of a day: whatever
    [query_db_for_date] returned for a date before a call of
    [save_new_to_db] it still returns after it. *)
Theorem query_survives_save :
  forall (clock : nat -> datetime) (items : list Item) (t : Table)
         (D : date) (q : Rec),
    In q (query_db_for_date D t) ->
    In q (query_db_for_date D (fst (save_new_to_db clock items t))).
Proof.
  intros clock items t D q. apply query_incl_after_save.
Qed.

Lemma saved_item_in_query clock items t it iso D :
  In it (snd (save_new_to_db clock items t)) ->
  pubdate_iso it = Some iso ->
  substring 0 10 iso = date_isoformat D ->
  In (MkRec (title it) (link it) (category it) (Some iso) (pubdate_raw it))
     (query_db_for_date D (fst (save_new_to_db clock items t))).
Proof.
  intros Hit Hiso Hd.
  destruct (save_new_to_db_extends clock items t) as [fresh [Eq F]].
  destruct (Forall2_In_l _ _ _ _ _ F it Hit) as [r [Hr [E1 [E2 [E3 [E4 E5]]]]]].
  apply query_In. exists r. rewrite Eq. simpl. split; [|split].
  - apply in_or_app. now right.
  - unfold iso_date_is. rewrite E4, Hiso. now apply String.eqb_eq.
  - unfold rec_of_row. now rewrite E1, E2, E3, E4, E5, Hiso.
Qed.

(** X8: an item that [save_new_to_db] returns and whose ISO date begins
    with a date [D] is found by [query_db_for_date D] on the resulting
    table, as a record with the item's title, link, category, ISO date and
    raw date. *)
Theorem saved_item_found_by_date :
  forall (clock : nat -> datetime) (items : list Item) (t : Table)
         (it : Item) (iso : string) (D : date),
    In it (snd (save_new_to_db clock items t)) ->
    pubdate_iso it = Some iso ->
    substring 0 10 iso = date_isoformat D ->
    In (MkRec (title it) (link it) (category it) (Some iso) (pubdate_raw it))
       (query_db_for_date D (fst (save_new_to_db clock items t))).
Proof.
  intros clock items t it iso D. apply saved_item_in_query.
Qed.

Lemma query_survives_save_witness :
  In (MkRec "First" "http://example.org/1" "news"
            (Some "2024-03-14T10:05:00+02:00") sample_pubdate)
     (query_db_for_date (Date 2024 3 14)
        (fst (save_new_to_db sample_clock [other_item]
                (fst (save_new_to_db sample_clock [first_item] empty_table))))).
Proof.
  apply query_survives_save. vm_compute. now left.
Defined.

Lemma saved_item_found_by_date_witness :
  In (MkRec "First" "http://example.org/1" "news"
            (Some "2024-03-14T10:05:00+02:00") sample_pubdate)
     (query_db_for_date (Date 2024 3 14)
        (fst (save_new_to_db sample_clock sample_batch empty_table))).
Proof.
  apply (saved_item_found_by_date sample_clock sample_batch empty_table
           first_item "2024-03-14T10:05:00+02:00" (Date 2024 3 14)).
  - vm_compute. right. now left.
  - reflexivity.
  - reflexivity.
Defined.

(** ** [isoformat] read back by [fromisoformat] *)

Lemma digit_val_digit n : Iso.digit_val (Fmt.digit n) = Some (n mod 10)%Z.
Proof.
  unfold Fmt.digit.
  assert (B : (0 <= n mod 10 < 10)%Z) by (apply Z.mod_pos_bound; lia).
  destruct (n mod 10)%Z as [|q|q]; [reflexivity | | lia].
  do 4 (destruct q as [q|q|]; try lia; try reflexivity).
Qed.

Lemma digit_is_no_sign c v :
  Iso.digit_val c = Some v ->
  Ascii.eqb "-" c = false /\ Ascii.eqb "+" c = false.
Proof.
  destruct c as [[] [] [] [] [] [] [] []]; intros H; vm_compute in H;
    try discriminate H; split; reflexivity.
Qed.

Lemma string_length_app a b :
  String.length (a ++ b) = (String.length a + String.length b)%nat.
Proof. induction a as [|c a IH]; simpl; [reflexivity | now rewrite IH]. Qed.

Lemma append_nil_r s : s ++ "" = s.
Proof. induction s as [|c s IH]; simpl; [reflexivity | now rewrite IH]. Qed.

Lemma parse2_pad2 n rest :
  (0 <= n < 100)%Z -> Iso.parse2 (Fmt.pad2 n ++ rest) = Some (n, rest).
Proof.
  intros B. unfold Fmt.pad2. cbn [append]. unfold Iso.parse2, Iso.int_of.
  cbn [Iso.digits_from]. rewrite !digit_val_digit.
  do 2 f_equal. Z.div_mod_to_equations. lia.
Qed.

Lemma int_of_pad4 n :
  (0 <= n < 10000)%Z -> Iso.int_of (Fmt.pad4 n) = Some n.
Proof.
  intros B. unfold Fmt.pad4, Fmt.pad2. cbn [append]. unfold Iso.int_of.
  cbn [Iso.digits_from]. rewrite !digit_val_digit.
  f_equal. Z.div_mod_to_equations. lia.
Qed.

Lemma int_of_pad6 n :
  (0 <= n < 1000000)%Z -> Iso.int_of (Fmt.pad6 n) = Some n.
Proof.
  intros B. unfold Fmt.pad6, Fmt.pad4, Fmt.pad2. cbn [append].
  unfold Iso.int_of.
  cbn [Iso.digits_from]. rewrite !digit_val_digit.
  f_equal. Z.div_mod_to_equations. lia.
Qed.

Lemma parse_date_isoformat y m d :
  (0 <= y < 10000)%Z -> (0 <= m < 100)%Z -> (0 <= d < 100)%Z ->
  Iso.parse_isoformat_date (date_isoformat (Date y m d)) = Some (y, m, d).
Proof.
  intros By Bm Bd. unfold Iso.parse_isoformat_date, date_isoformat. simpl d_year.
  simpl d_month. simpl d_day.
  assert (E4 : substring 0 4 (Fmt.pad4 y ++ "-" ++ Fmt.pad2 m ++ "-" ++ Fmt.pad2 d)
               = Fmt.pad4 y) by reflexivity.
  assert (D4 : Str.drop 4 (Fmt.pad4 y ++ "-" ++ Fmt.pad2 m ++ "-" ++ Fmt.pad2 d)
               = "-" ++ Fmt.pad2 m ++ "-" ++ Fmt.pad2 d) by reflexivity.
  rewrite E4, D4, (int_of_pad4 y By). cbn [append Iso.expect].
  change (Ascii.eqb "-" "-") with true. cbv iota.
  rewrite (parse2_pad2 m _ Bm). cbn [append Iso.expect].
  change (Ascii.eqb "-" "-") with true. cbv iota.
  rewrite <- (append_nil_r (Fmt.pad2 d)), (parse2_pad2 d "" Bd). reflexivity.
Qed.

Lemma occurs_two_digits a b va vb :
  Iso.digit_val a = Some va -> Iso.digit_val b = Some vb ->
  occurs "-" (String a (String b "")) = false
  /\ occurs "+" (String a (String b "")) = false.
Proof.
  intros Ha Hb.
  destruct (digit_is_no_sign a va Ha) as [A B].
  destruct (digit_is_no_sign b vb Hb) as [A' B'].
  cbn [occurs]. rewrite A, B, A', B'. split; reflexivity.
Qed.

Lemma occurs_pad2 n :
  occurs "-" (Fmt.pad2 n) = false /\ occurs "+" (Fmt.pad2 n) = false.
Proof.
  unfold Fmt.pad2.
  exact (occurs_two_digits _ _ _ _ (digit_val_digit (n / 10))
           (digit_val_digit n)).
Qed.

Lemma occurs_pad6 n :
  occurs "-" (Fmt.pad6 n) = false /\ occurs "+" (Fmt.pad6 n) = false.
Proof.
  unfold Fmt.pad6, Fmt.pad4. rewrite !occurs_app.
  destruct (occurs_pad2 (n / 10000)) as [-> ->].
  destruct (occurs_pad2 (n / 100)) as [-> ->].
  destruct (occurs_pad2 n) as [-> ->]. now split.
Qed.

Lemma split_at_absent c s : occurs c s = false -> Iso.split_at c s = None.
Proof.
  induction s as [|d s IH]; simpl; [reflexivity|].
  intros O. apply orb_false_iff in O. destruct O as [-> O].
  now rewrite (IH O).
Qed.

Lemma split_at_first c a b :
  occurs c a = false -> Iso.split_at c (a ++ String c b) = Some (a, b).
Proof.
  induction a as [|d a IH]; simpl.
  - now rewrite Ascii.eqb_refl.
  - intros O. apply orb_false_iff in O. destruct O as [-> O].
    now rewrite (IH O).
Qed.

(** The text [HH:MM:SS] with its optional fraction reads back as the four
    numbers. *)
Lemma parse_hh_mm_ss h m s us :
  (0 <= h < 100)%Z -> (0 <= m < 100)%Z -> (0 <= s < 100)%Z ->
  (0 <= us < 1000000)%Z ->
  Iso.parse_hh_mm_ss_ff
    (Fmt.pad2 h ++ ":" ++ Fmt.pad2 m ++ ":" ++ Fmt.pad2 s
     ++ (if (us =? 0)%Z then "" else "." ++ Fmt.pad6 us))
  = Some (h, m, s, us).
Proof.
  intros Bh Bm Bs Bu. unfold Iso.parse_hh_mm_ss_ff.
  rewrite (parse2_pad2 h _ Bh). cbn [append Iso.expect].
  change (Ascii.eqb ":" ":") with true. cbv iota.
  rewrite (parse2_pad2 m _ Bm). cbn [append Iso.expect].
  change (Ascii.eqb ":" ":") with true. cbv iota.
  rewrite (parse2_pad2 s _ Bs).
  destruct (Z.eqb_spec us 0) as [-> | N]; [reflexivity|].
  cbn [append Iso.parse_ff]. change (Ascii.eqb "." ".") with true. cbv iota.
  now rewrite (int_of_pad6 us Bu).
Qed.

Lemma format_time_signless dt :
  occurs "-" (format_time dt) = false /\ occurs "+" (format_time dt) = false.
Proof.
  unfold format_time. rewrite !occurs_app.
  destruct (occurs_pad2 (dt_hour dt)) as [-> ->].
  destruct (occurs_pad2 (dt_minute dt)) as [-> ->].
  destruct (occurs_pad2 (dt_second dt)) as [-> ->].
  destruct (dt_microsecond dt =? 0)%Z; [now split|].
  rewrite !occurs_app. destruct (occurs_pad6 (dt_microsecond dt)) as [-> ->].
  now split.
Qed.

(** What [format_offset] writes for an offset below 24 hours: a sign and a
    body that reads back as the absolute value. *)
Lemma format_offset_reads_back o :
  (Z.abs o < 86400000000)%Z ->
  exists body th tm ts tus,
    format_offset (Some o) = String (if (o <? 0)%Z then "-" else "+") body
    /\ occurs "-" body = false
    /\ ((String.length body =? 5) || (String.length body =? 8)
        || (String.length body =? 15))%nat = true
    /\ Iso.parse_hh_mm_ss_ff body = Some (th, tm, ts, tus)
    /\ ((((th * 60 + tm) * 60 + ts) * 1000000 + tus)%Z = Z.abs o).
Proof.
  intros B. unfold format_offset.
  set (a := Z.abs o) in *.
  set (hh := (a / 3600000000)%Z).
  set (r := (a mod 3600000000)%Z).
  set (mm := (r / 60000000)%Z).
  set (ss := (r mod 60000000)%Z).
  assert (Ba : (0 <= a)%Z) by apply Z.abs_nonneg.
  assert (Bh : (0 <= hh < 100)%Z) by (unfold hh; Z.div_mod_to_equations; lia).
  assert (Bm : (0 <= mm < 100)%Z)
    by (unfold mm, r; Z.div_mod_to_equations; lia).
  assert (Bs : (0 <= ss / 1000000 < 100)%Z)
    by (unfold ss, r; Z.div_mod_to_equations; lia).
  assert (Bu : (0 <= ss mod 1000000 < 1000000)%Z)
    by (apply Z.mod_pos_bound; lia).
  assert (Sum : (((hh * 60 + mm) * 60 + ss / 1000000) * 1000000
                 + ss mod 1000000)%Z = a)
    by (unfold hh, mm, ss, r; Z.div_mod_to_equations; lia).
  destruct (occurs_pad2 hh) as [Oh _], (occurs_pad2 mm) as [Om _],
    (occurs_pad2 (ss / 1000000)) as [Os _],
    (occurs_pad6 (ss mod 1000000)) as [Ou _].
  destruct (Z.eqb_spec ss 0) as [Z0 | N0].
  - exists (Fmt.pad2 hh ++ ":" ++ Fmt.pad2 mm), hh, mm, 0%Z, 0%Z.
    split; [now destruct (o <? 0)%Z|].
    split; [rewrite !occurs_app, Oh, Om; reflexivity|].
    split; [reflexivity|]. split.
    + unfold Iso.parse_hh_mm_ss_ff.
      rewrite (parse2_pad2 hh _ Bh). cbn [append Iso.expect].
      change (Ascii.eqb ":" ":") with true. cbv iota.
      rewrite <- (append_nil_r (Fmt.pad2 mm)), (parse2_pad2 mm "" Bm).
      reflexivity.
    + rewrite Z0 in Sum.
      rewrite Z.div_0_l, Z.mod_0_l in Sum by lia. lia.
  - exists (Fmt.pad2 hh ++ ":" ++ Fmt.pad2 mm ++ ":" ++ Fmt.pad2 (ss / 1000000)
            ++ (if (ss mod 1000000 =? 0)%Z then ""
                else "." ++ Fmt.pad6 (ss mod 1000000))),
      hh, mm, (ss / 1000000)%Z, (ss mod 1000000)%Z.
    split; [destruct (o <? 0)%Z; cbn [append]; rewrite ?append_assoc; reflexivity|].
    split.
    { rewrite !occurs_app, Oh, Om, Os.
      destruct (ss mod 1000000 =? 0)%Z; [reflexivity|].
      rewrite !occurs_app, Ou. reflexivity. }
    split.
    { rewrite !string_length_app.
      destruct (ss mod 1000000 =? 0)%Z; reflexivity. }
    split; [|exact Sum].
    now apply parse_hh_mm_ss.
Qed.

Lemma iso_date_part D c rest :
  substring 0 10 (date_isoformat D ++ String c rest) = date_isoformat D
  /\ Str.drop 11 (date_isoformat D ++ String c rest) = rest.
Proof.
  unfold date_isoformat, Fmt.pad4, Fmt.pad2.
  cbn [append substring Str.drop]. split; reflexivity.
Qed.

Lemma match_nonempty (A : Type) (s : string) (x y : A) :
  String.length s <> 0%nat ->
  match s with EmptyString => x | String _ _ => y end = y.
Proof. destruct s; [intros N; now contradiction N | reflexivity]. Qed.

Lemma parse_format_time dt :
  (0 <= dt_hour dt < 100)%Z -> (0 <= dt_minute dt < 100)%Z ->
  (0 <= dt_second dt < 100)%Z -> (0 <= dt_microsecond dt < 1000000)%Z ->
  Iso.parse_hh_mm_ss_ff (format_time dt)
  = Some (dt_hour dt, dt_minute dt, dt_second dt, dt_microsecond dt).
Proof. intros. unfold format_time. now apply parse_hh_mm_ss. Qed.

Lemma parse_isoformat_time_reads_back dt :
  (0 <= dt_hour dt < 100)%Z -> (0 <= dt_minute dt < 100)%Z ->
  (0 <= dt_second dt < 100)%Z -> (0 <= dt_microsecond dt < 1000000)%Z ->
  match dt_offset dt with
  | Some o => (Z.abs o < 86400000000)%Z
  | None => True
  end ->
  Iso.parse_isoformat_time (format_time dt ++ format_offset (dt_offset dt))
  = Some (dt_hour dt, dt_minute dt, dt_second dt, dt_microsecond dt,
          dt_offset dt).
Proof.
  intros Bh Bm Bs Bu Bo.
  pose proof (parse_format_time dt Bh Bm Bs Bu) as PT.
  destruct (format_time_signless dt) as [Om Op].
  unfold Iso.parse_isoformat_time, Iso.split_tz.
  destruct (dt_offset dt) as [o|].
  - destruct (format_offset_reads_back o Bo)
      as [body [th [tm [ts [tus [Eq [Ob [Len [PB Sum]]]]]]]]].
    rewrite Eq. destruct (Z.ltb_spec o 0) as [Neg | Pos].
    + rewrite (split_at_first "-" _ body Om). rewrite PT, Len, PB, Sum.
      do 3 f_equal. lia.
    + rewrite (split_at_absent "-").
      2:{ rewrite occurs_app, Om. cbn [occurs]. now rewrite Ob. }
      rewrite (split_at_first "+" _ body Op). rewrite PT, Len, PB, Sum.
      do 3 f_equal. lia.
  - cbn [format_offset]. rewrite append_nil_r.
    rewrite (split_at_absent "-" _ Om), (split_at_absent "+" _ Op).
    now rewrite PT.
Qed.

Lemma check_fields_bounds dt :
  Iso.check_fields dt = true ->
  (0 <= dt_year dt < 10000)%Z /\ (0 <= dt_month dt < 100)%Z
  /\ (0 <= dt_day dt < 100)%Z
  /\ (0 <= dt_hour dt < 100)%Z /\ (0 <= dt_minute dt < 100)%Z
  /\ (0 <= dt_second dt < 100)%Z /\ (0 <= dt_microsecond dt < 1000000)%Z
  /\ match dt_offset dt with
     | Some o => (Z.abs o < 86400000000)%Z
     | None => True
     end.
Proof.
  unfold Iso.check_fields, Iso.in_range, Iso.days_in_month.
  rewrite !andb_true_iff, !Z.leb_le.
  intros [[[[[[[[Y1 Y2] [M1 M2]] [D1 D2]] [H1 H2]] [I1 I2]] [S1 S2]] [U1 U2]] O].
  assert (D3 : (dt_day dt <= 31)%Z).
  { destruct (dt_month dt =? 2)%Z;
      [destruct (Iso.is_leap (dt_year dt))|
       destruct ((dt_month dt =? 4) || (dt_month dt =? 6)
                 || (dt_month dt =? 9) || (dt_month dt =? 11))%Z]; lia. }
  repeat split; try lia.
  destruct (dt_offset dt); [now apply Z.ltb_lt | exact I].
Qed.

(** X9: [fromisoformat] reads back what [isoformat] writes: for every
    date/time value that the [datetime] constructor accepts, with or without
    microseconds and with any offset below 24 hours, parsing its ISO text
    gives the value again. *)
Theorem fromisoformat_isoformat :
  forall dt : datetime,
    Iso.check_fields dt = true ->
    Iso.fromisoformat (isoformat dt) = Some dt.
Proof.
  intros dt Ok.
  destruct (check_fields_bounds dt Ok)
    as [By [Bm [Bd [Bh [Bi [Bs [Bu Bo]]]]]]].
  unfold Iso.fromisoformat, isoformat, isoformat_sep.
  change ("T" ++ format_time dt ++ format_offset (dt_offset dt))
    with (String "T" (format_time dt ++ format_offset (dt_offset dt))).
  destruct (iso_date_part (dt_date dt) "T"
              (format_time dt ++ format_offset (dt_offset dt))) as [-> ->].
  unfold dt_date. rewrite (parse_date_isoformat _ _ _ By Bm Bd).
  rewrite match_nonempty.
  2:{ unfold format_time, Fmt.pad2. cbn [append String.length]. discriminate. }
  rewrite (parse_isoformat_time_reads_back dt Bh Bi Bs Bu Bo).
  destruct dt. simpl in *. now rewrite Ok.
Qed.

Lemma fromisoformat_isoformat_witness :
  Iso.fromisoformat (isoformat sample_datetime) = Some sample_datetime.
Proof. apply fromisoformat_isoformat. reflexivity. Defined.

(** ** From the parsed date to the page *)

Lemma isoformat_prefix dt :
  substring 0 10 (isoformat dt) = date_isoformat (dt_date dt).
Proof.
  unfold isoformat, isoformat_sep.
  change ("T" ++ format_time dt ++ format_offset (dt_offset dt))
    with (String "T" (format_time dt ++ format_offset (dt_offset dt))).
  now destruct (iso_date_part (dt_date dt) "T"
                  (format_time dt ++ format_offset (dt_offset dt))).
Qed.

Lemma isoformat_truthy dt : Str.truthy (isoformat dt) = true.
Proof.
  unfold isoformat, isoformat_sep, date_isoformat, Fmt.pad4, Fmt.pad2.
  reflexivity.
Qed.

Lemma item_dates_linked `{PyLib} e dt :
  pubdate_dt (item_of_element e) = Some dt ->
  pubdate_iso (item_of_element e) = Some (isoformat dt).
Proof.
  unfold item_of_element, parse_pubdate.
  destruct (Str.truthy _); [|discriminate].
  destruct (parsedate_to_datetime _); simpl; [|discriminate].
  now intros [= ->].
Qed.

Lemma date_ok_bounds D :
  date_ok D = true ->
  (0 <= d_year D < 10000)%Z /\ (0 <= d_month D < 100)%Z
  /\ (0 <= d_day D < 100)%Z.
Proof.
  unfold date_ok, Iso.in_range, Iso.days_in_month.
  rewrite !andb_true_iff, !Z.leb_le. intros [[[Y1 Y2] [M1 M2]] [D1 D2]].
  assert (D3 : (d_day D <= 31)%Z).
  { destruct (d_month D =? 2)%Z;
      [destruct (Iso.is_leap (d_year D))|
       destruct ((d_month D =? 4) || (d_month D =? 6)
                 || (d_month D =? 9) || (d_month D =? 11))%Z]; lia. }
  lia.
Qed.

Lemma check_fields_date_ok dt :
  Iso.check_fields dt = true -> date_ok (dt_date dt) = true.
Proof.
  unfold Iso.check_fields, date_ok. simpl. rewrite !andb_true_iff.
  intros [[[[[[[Y M] D] _] _] _] _] _]. now repeat split.
Qed.

Lemma date_isoformat_inj D1 D2 :
  date_ok D1 = true -> date_ok D2 = true ->
  date_isoformat D1 = date_isoformat D2 -> D1 = D2.
Proof.
  intros O1 O2 E.
  destruct (date_ok_bounds D1 O1) as [Y1 [M1 B1]].
  destruct (date_ok_bounds D2 O2) as [Y2 [M2 B2]].
  destruct D1 as [y1 m1 d1], D2 as [y2 m2 d2]. simpl in *.
  pose proof (parse_date_isoformat y1 m1 d1 Y1 M1 B1) as P1.
  pose proof (parse_date_isoformat y2 m2 d2 Y2 M2 B2) as P2.
  rewrite E in P1. rewrite P1 in P2. now injection P2 as -> -> ->.
Qed.

(** X10: a parsed publish date reaches the page formatted in its own zone:
    the record of the row stored for a parsed item whose publish date
    parsed to a date/time value [dt] has as its display timestamp [dt]
    formatted by [strftime("%Y-%m-%d %H:%M")], which is [YYYY-MM-DD HH:MM]
    when the year has four digits; the year is not padded, so an item dated
    in the year 999 is shown with three digits. *)
Theorem parsed_date_displayed :
  forall (lib : PyLib) (e : Element) (dt : datetime) (id : Z) (now : string),
    pubdate_dt (item_of_element e) = Some dt ->
    Iso.check_fields dt = true ->
    display_timestamp (rec_of_row (row_of_item id (item_of_element e) now))
    = strftime_ymd_hm dt
    /\ ((1000 <= dt_year dt)%Z ->
        strftime_ymd_hm dt
        = Fmt.pad4 (dt_year dt) ++ "-" ++ Fmt.pad2 (dt_month dt) ++ "-"
          ++ Fmt.pad2 (dt_day dt) ++ " " ++ Fmt.pad2 (dt_hour dt) ++ ":"
          ++ Fmt.pad2 (dt_minute dt))
    /\ strftime_ymd_hm (DateTime 999 1 1 0 0 0 0 (Some 0%Z))
       = "999-01-01 00:00".
Proof.
  intros lib e dt id now Hdt Ok. split; [|split].
  - unfold display_timestamp, display_timestamp_with, rec_of_row, row_of_item.
    cbn [q_pubdate_iso q_pubdate_raw r_pubdate_iso r_pubdate_raw].
    rewrite (item_dates_linked e dt Hdt). cbn [opt_truthy text_or_empty].
    rewrite isoformat_truthy, (fromisoformat_isoformat dt Ok). reflexivity.
  - intros B. unfold strftime_ymd_hm. now rewrite (year_text_four_digits _ B).
  - reflexivity.
Qed.

Lemma parsed_date_displayed_witness :
  display_timestamp
    (rec_of_row
       (row_of_item 1
          (@item_of_element sample_lib
             (Elem "item" None [Elem "pubDate" (Some sample_pubdate) []]))
          "2024-03-14T18:30:00"))
  = "2024-03-14 10:05".
Proof.
  refine (proj1 (parsed_date_displayed sample_lib _ sample_datetime 1
                   "2024-03-14T18:30:00" _ _)); reflexivity.
Defined.

(** X11: on the items of the parser the date test of [filter_news] and the
    [LIKE] test of [query_db_for_date] agree where there is a parsed date
    and part where there is none: the row stored for an item with a parsed
    date matches a date [D] exactly when the item passes the date filter
    [D]; an item without a parsed date passes every date filter and its row
    matches no date. *)
Theorem filter_and_query_on_dates :
  forall (lib : PyLib) (e : Element) (D : date) (id : Z) (now : string),
    date_ok D = true ->
    let it := item_of_element e in
    match pubdate_dt it with
    | Some dt =>
        Iso.check_fields dt = true ->
        where_like (date_isoformat D ++ String percent "") (row_of_item id it now)
        = filter_ok (Some D) None it
    | None =>
        filter_ok (Some D) None it = true
        /\ where_like (date_isoformat D ++ String percent "")
             (row_of_item id it now) = false
    end.
Proof.
  intros lib e D id now OD. cbv zeta.
  destruct (pubdate_dt (item_of_element e)) as [dt|] eqn:Hdt.
  - intros Ok. rewrite where_like_iso_date.
    unfold iso_date_is, row_of_item, filter_ok. cbn [r_pubdate_iso].
    rewrite (item_dates_linked e dt Hdt), Hdt, isoformat_prefix.
    destruct (date_eqb (dt_date dt) D) eqn:E; cbn [negb].
    + apply date_eqb_eq in E. rewrite E. apply String.eqb_refl.
    + apply String.eqb_neq. intros C.
      apply (date_isoformat_inj _ _ (check_fields_date_ok dt Ok) OD) in C.
      apply date_eqb_eq in C. congruence.
  - split.
    + unfold filter_ok. now rewrite Hdt.
    + rewrite where_like_iso_date. unfold iso_date_is, row_of_item. simpl.
      assert (N : pubdate_iso (item_of_element e) = None).
      { destruct (item_of_element_dates e) as [[_ N] _]. now apply N. }
      now rewrite N.
Qed.

Lemma filter_and_query_on_dates_witness :
  filter_ok (Some (Date 2024 3 15)) None
    (@item_of_element sample_lib linkless_entry) = true
  /\ where_like (date_isoformat (Date 2024 3 15) ++ String percent "")
       (row_of_item 7 (@item_of_element sample_lib linkless_entry)
          "2024-03-15T00:00:01") = false.
Proof.
  exact (filter_and_query_on_dates sample_lib linkless_entry (Date 2024 3 15)
           7 "2024-03-15T00:00:01" eq_refl).
Defined.

(** ** The page file *)

Lemma string_app_inj a :
  forall a' b b',
    String.length a = String.length a' ->
    a ++ b = a' ++ b' -> a = a' /\ b = b'.
Proof.
  induction a as [|c a IH]; intros [|c' a'] b b' L E; simpl in *;
    try discriminate.
  - now split.
  - injection E as -> E. injection L as L.
    destruct (IH a' b b' L E) as [-> ->]. now split.
Qed.

Lemma pad2_inj n m :
  (0 <= n < 100)%Z -> (0 <= m < 100)%Z -> Fmt.pad2 n = Fmt.pad2 m -> n = m.
Proof.
  intros Bn Bm E.
  pose proof (parse2_pad2 n "" Bn) as Pn.
  pose proof (parse2_pad2 m "" Bm) as Pm.
  rewrite E in Pn. rewrite Pn in Pm. now injection Pm.
Qed.

Lemma pad4_inj n m :
  (0 <= n < 10000)%Z -> (0 <= m < 10000)%Z -> Fmt.pad4 n = Fmt.pad4 m -> n = m.
Proof.
  intros Bn Bm E.
  pose proof (int_of_pad4 n Bn) as Pn.
  pose proof (int_of_pad4 m Bm) as Pm.
  rewrite E in Pn. rewrite Pn in Pm. now injection Pm.
Qed.

Lemma int_of_year_text y :
  (0 <= y < 10000)%Z -> Iso.int_of (Fmt.year_text y) = Some y.
Proof.
  intros B. unfold Fmt.year_text.
  destruct (Z.ltb_spec y 10);
    [|destruct (Z.ltb_spec y 100);
      [|destruct (Z.ltb_spec y 1000); [|now apply int_of_pad4]]];
    unfold Fmt.pad2, Iso.int_of; cbn [Iso.digits_from];
    rewrite !digit_val_digit; f_equal; Z.div_mod_to_equations; lia.
Qed.

Lemma year_text_inj y1 y2 :
  (0 <= y1 < 10000)%Z -> (0 <= y2 < 10000)%Z ->
  Fmt.year_text y1 = Fmt.year_text y2 -> y1 = y2.
Proof.
  intros B1 B2 E.
  pose proof (int_of_year_text y1 B1) as P1.
  pose proof (int_of_year_text y2 B2) as P2.
  rewrite E in P1. rewrite P1 in P2. now injection P2.
Qed.

(** The month and the day take two digits each, so the year is what stands
    before the last four characters, whatever its length. *)
Lemma date_compact_inj D1 D2 :
  date_ok D1 = true -> date_ok D2 = true ->
  date_compact D1 = date_compact D2 -> D1 = D2.
Proof.
  intros O1 O2 E.
  destruct (date_ok_bounds D1 O1) as [Y1 [M1 B1]].
  destruct (date_ok_bounds D2 O2) as [Y2 [M2 B2]].
  destruct D1 as [y1 m1 d1], D2 as [y2 m2 d2]. unfold date_compact in E.
  simpl d_year in *. simpl d_month in *. simpl d_day in *.
  assert (L : String.length (Fmt.year_text y1)
              = String.length (Fmt.year_text y2)).
  { pose proof (f_equal String.length E) as EL.
    rewrite !string_length_app in EL.
    change (String.length (Fmt.pad2 m1)) with 2%nat in EL.
    change (String.length (Fmt.pad2 d1)) with 2%nat in EL.
    change (String.length (Fmt.pad2 m2)) with 2%nat in EL.
    change (String.length (Fmt.pad2 d2)) with 2%nat in EL.
    lia. }
  apply string_app_inj in E; [|exact L]. destruct E as [Ey E].
  apply string_app_inj in E; [|reflexivity]. destruct E as [Em Ed].
  apply year_text_inj in Ey; [|assumption..].
  apply pad2_inj in Em; [|assumption..].
  apply pad2_inj in Ed; [|assumption..].
  now subst.
Qed.

Lemma page_path_inj D1 D2 :
  date_ok D1 = true -> date_ok D2 = true ->
  page_path D1 = page_path D2 -> D1 = D2.
Proof.
  intros O1 O2 E. unfold page_path in E.
  apply string_app_inj in E; [|reflexivity]. destruct E as [_ E].
  assert (L : String.length (date_compact D1)
              = String.length (date_compact D2)).
  { pose proof (f_equal String.length E) as EL.
    rewrite !string_length_app in EL. simpl in EL. lia. }
  apply string_app_inj in E; [|exact L]. destruct E as [E _].
  now apply date_compact_inj.
Qed.

Example page_path_short_year :
  page_path (Date 999 1 1) = "news/news_9990101.html".
Proof. reflexivity. Qed.

(** X12: [write_news_file] keeps one page per date: the page of a date is
    read back as it was written, two dates have the same path only when
    they are the same date, so writing the page of another date leaves the
    first page as it was, and neither the table nor the template is
    touched. *)
Theorem write_news_file_per_date :
  forall (D1 D2 : date) (h1 h2 : string) (w : World),
    date_ok D1 = true -> date_ok D2 = true ->
    let r1 := write_news_file D1 h1 w in
    let r2 := write_news_file D2 h2 (fst r1) in
    read_file (snd r2) (fst r2) = Some h2
    /\ (snd r1 = snd r2 <-> D1 = D2)
    /\ (D1 <> D2 -> read_file (snd r1) (fst r2) = Some h1)
    /\ db (fst r2) = db w /\ template (fst r2) = template w.
Proof.
  intros D1 D2 h1 h2 w O1 O2. unfold write_news_file, read_file.
  cbn [fst snd news_files db template lookup_file].
  fold (page_path D1). fold (page_path D2).
  rewrite String.eqb_refl.
  split; [reflexivity|]. split; [|split; [|split; reflexivity]].
  - split; [now apply page_path_inj | now intros ->].
  - intros N.
    destruct (String.eqb_spec (page_path D2) (page_path D1)) as [E | _].
    + exfalso. apply N. symmetry. now apply page_path_inj.
    + now rewrite String.eqb_refl.
Qed.

Lemma write_news_file_per_date_witness :
  read_file "news/news_20240314.html"
    (fst (write_news_file (Date 2024 3 15) "<p>15</p>"
            (fst (write_news_file (Date 2024 3 14) "<p>14</p>" sample_world))))
  = Some "<p>14</p>".
Proof.
  refine (proj1 (proj2 (proj2 (write_news_file_per_date (Date 2024 3 14)
            (Date 2024 3 15) "<p>14</p>" "<p>15</p>" sample_world
            eq_refl eq_refl))) _).
  discriminate.
Defined.

(** ** [main] as a whole *)

Lemma save_loop_added_length clock items :
  forall k t added,
    (List.length (snd (save_loop clock k items t added))
     <= List.length added + List.length items)%nat.
Proof.
  induction items as [|it items IH]; intros k t added; simpl; [lia|].
  destruct (sql_insert t it _) as [t'|].
  - specialize (IH (S k) t' (added ++ [it])%list).
    rewrite length_app in IH. simpl in IH. lia.
  - specialize (IH (S k) t added). lia.
Qed.

Lemma main_unfold `{PyLib} env w :
  main env w
  = match template w with
    | None => (world_after_init w, TemplateMissing)
    | Some tpl =>
        match rss_response env with
        | None => (world_after_init w, FetchFailed)
        | Some xml =>
            match parse_rss xml with
            | None => (world_after_init w, ParseError)
            | Some items =>
                let today := dt_date (clock_today env) in
                let todays := filter_news items (Some today) None in
                let saved :=
                  save_new_to_db (clock_insert env) todays (init_db (db w)) in
                let db_items := query_db_for_date today (fst saved) in
                (MkWorld (Some (fst saved)) (template w)
                   ((page_path today,
                     render_news_html tpl (clock_render env) today db_items)
                    :: news_files w),
                 Done (List.length items) (List.length todays)
                      (List.length (snd saved)) (List.length db_items)
                      (page_path today))
            end
        end
    end.
Proof.
  unfold main, world_after_init. cbn [template db news_files].
  destruct (template w) as [tpl|]; [|reflexivity].
  destruct (rss_response env) as [xml|]; [|reflexivity].
  destruct (parse_rss xml) as [items|]; [|reflexivity].
  cbv zeta.
  destruct (save_new_to_db _ _ _) as [t' added]. reflexivity.
Qed.

(** X13: [main] stops without touching the store's rows or the pages when
    the template is missing, when the fetch fails, or when the feed is not
    XML, in this order of checks: the template is looked for before the feed
    is fetched.  All that such a run leaves behind is the table that
    [init_db] created, if there was none. *)
Theorem main_stops_early :
  forall (lib : PyLib) (env : Env) (w : World),
    (template w = None ->
     main env w = (world_after_init w, TemplateMissing))
    /\ (template w <> None -> rss_response env = None ->
        main env w = (world_after_init w, FetchFailed))
    /\ (forall xml,
           template w <> None -> rss_response env = Some xml ->
           ET_fromstring xml = None ->
           main env w = (world_after_init w, ParseError))
    /\ rows (table_of (world_after_init w)) = rows (table_of w)
    /\ news_files (world_after_init w) = news_files w.
Proof.
  intros lib env w. rewrite main_unfold.
  split; [|split; [|split; [|split; reflexivity]]].
  - now intros ->.
  - intros T ->. destruct (template w); [reflexivity | contradiction].
  - intros xml T -> P. unfold parse_rss. rewrite P.
    destruct (template w); [reflexivity | contradiction].
Qed.

(** X14: a run that reaches the end writes the page of today from the
    store, not from the feed: the file at the reported path holds the
    template rendered with the records that [query_db_for_date] returns for
    today on the table as the run left it, so rows stored by earlier runs
    are on the page too.  The four counts are the numbers of parsed items,
    of items kept by the date filter, of items inserted and of records
    rendered, and each of the first three bounds the next. *)
Theorem main_done_page :
  forall (lib : PyLib) (env : Env) (w : World)
         (n_items n_todays n_added n_db : nat) (path : string),
    snd (main env w) = Done n_items n_todays n_added n_db path ->
    let today := dt_date (clock_today env) in
    let w' := fst (main env w) in
    exists tpl,
      template w = Some tpl
      /\ path = page_path today
      /\ read_file path w'
         = Some (render_news_html tpl (clock_render env) today
                   (query_db_for_date today (table_of w')))
      /\ n_db = List.length (query_db_for_date today (table_of w'))
      /\ (n_added <= n_todays <= n_items)%nat
      /\ List.length (rows (table_of w'))
         = (List.length (rows (table_of w)) + n_added)%nat
      /\ (forall q, In q (query_db_for_date today (table_of w)) ->
                    In q (query_db_for_date today (table_of w'))).
Proof.
  intros lib env w n1 n2 n3 n4 path. rewrite main_unfold.
  destruct (template w) as [tpl|]; [|discriminate].
  destruct (rss_response env) as [xml|]; [|discriminate].
  destruct (parse_rss xml) as [items|]; [|discriminate].
  cbv zeta. cbn [fst snd]. intros [= <- <- <- <- <-].
  unfold table_of, read_file. cbn [db news_files init_db lookup_file].
  rewrite String.eqb_refl.
  set (today := dt_date (clock_today env)).
  set (todays := filter_news items (Some today) None).
  exists tpl. split; [reflexivity|]. split; [reflexivity|].
  split; [reflexivity|]. split; [reflexivity|].
  destruct (save_new_to_db_extends (clock_insert env) todays (init_db (db w)))
    as [fresh [Eq F]].
  split; [|split].
  - split.
    + exact (save_loop_added_length (clock_insert env) todays 0
               (init_db (db w)) []).
    + unfold todays. rewrite filter_news_filter. apply filter_length_le.
  - rewrite Eq. simpl. rewrite length_app.
    now rewrite (Forall2_length F).
  - intros q. apply query_incl_after_save.
Qed.

Lemma main_done_page_witness :
  read_file "news/news_20240314.html"
    (fst (@main sample_lib sample_env sample_world))
  = Some (render_news_html
            "<h1>{{date}}</h1>{{news_list}}<i>{{generated_at}}</i>"
            (clock_render sample_env) (Date 2024 3 14)
            (query_db_for_date (Date 2024 3 14)
               (table_of (fst (@main sample_lib sample_env sample_world))))).
Proof.
  destruct (main_done_page sample_lib sample_env sample_world 3 3 3 1
              "news/news_20240314.html" main_sample_outcome)
    as [tpl [T [_ [R _]]]].
  injection T as <-. exact R.
Defined.

Lemma save_new_to_db_keeps_ids clock items t :
  ids_ok t -> ids_ok (fst (save_new_to_db clock items t)).
Proof.
  intros Ok. unfold save_new_to_db.
  apply (save_loop_invariant ids_ok clock); [|exact Ok].
  intros t0 it now t1 H0 E. exact (ids_ok_insert t0 it now t1 H0 E).
Qed.

(** X15: whatever the feed and however the run ends, [main] leaves the
    template as it is, keeps every row of the table in place and only adds
    rows behind them, keeps the links distinct and the ids increasing when
    they were, and changes no page other than today's. *)
Theorem main_keeps_store :
  forall (lib : PyLib) (env : Env) (w : World),
    let w' := fst (main env w) in
    template w' = template w
    /\ (exists fresh, rows (table_of w') = (rows (table_of w) ++ fresh)%list)
    /\ (links_unique (table_of w) -> links_unique (table_of w'))
    /\ (ids_ok (table_of w) -> ids_ok (table_of w'))
    /\ (forall p, p <> page_path (dt_date (clock_today env)) ->
                  read_file p w' = read_file p w).
Proof.
  intros lib env w. cbv zeta. rewrite main_unfold.
  assert (Stop : forall o : Outcome,
    template (fst (world_after_init w, o)) = template w
    /\ (exists fresh,
          rows (table_of (fst (world_after_init w, o)))
          = (rows (table_of w) ++ fresh)%list)
    /\ (links_unique (table_of w) ->
        links_unique (table_of (fst (world_after_init w, o))))
    /\ (ids_ok (table_of w) -> ids_ok (table_of (fst (world_after_init w, o))))
    /\ (forall p, p <> page_path (dt_date (clock_today env)) ->
                  read_file p (fst (world_after_init w, o)) = read_file p w)).
  { intros o. unfold table_of, world_after_init, read_file. simpl.
    split; [reflexivity|]. split; [exists []; now rewrite app_nil_r|].
    split; [auto|]. split; [auto | reflexivity]. }
  destruct (template w) as [tpl|] eqn:T; [|apply Stop].
  destruct (rss_response env) as [xml|]; [|apply Stop].
  destruct (parse_rss xml) as [items|]; [|apply Stop].
  cbv zeta. unfold table_of, read_file.
  cbn [fst db template news_files init_db lookup_file].
  set (today := dt_date (clock_today env)).
  set (todays := filter_news items (Some today) None).
  split; [reflexivity|]. split; [|split; [|split]].
  - destruct (save_new_to_db_extends (clock_insert env) todays (init_db (db w)))
      as [fresh [Eq _]].
    exists fresh. now rewrite Eq.
  - apply save_new_to_db_unique.
  - apply save_new_to_db_keeps_ids.
  - intros p N.
    destruct (String.eqb_spec (page_path today) p) as [E | _]; [|reflexivity].
    now contradiction N.
Qed.

(** ** [html.escape] loses nothing *)

Lemma escape_char_cases c :
  (is_special c = false /\ escape_char c = String c "")
  \/ (c = amp /\ escape_char c = "&amp;")
  \/ (c = lt /\ escape_char c = "&lt;")
  \/ (c = gt /\ escape_char c = "&gt;")
  \/ (c = dquote /\ escape_char c = "&quot;")
  \/ (c = squote /\ escape_char c = "&#x27;").
Proof.
  destruct c as [[] [] [] [] [] [] [] []];
    first [ left; split; reflexivity
          | right; left; split; reflexivity
          | right; right; left; split; reflexivity
          | right; right; right; left; split; reflexivity
          | right; right; right; right; left; split; reflexivity
          | right; right; right; right; right; split; reflexivity ].
Qed.

Lemma html_escape_inj s1 :
  forall s2, html_escape s1 = html_escape s2 -> s1 = s2.
Proof.
  induction s1 as [|c1 s1 IH]; intros [|c2 s2] E.
  - reflexivity.
  - exfalso. simpl in E.
    destruct (escape_char_cases c2) as [[_ R] | [[_ R] | [[_ R] | [[_ R] | [[_ R] | [_ R]]]]]];
      rewrite R in E; discriminate E.
  - exfalso. simpl in E.
    destruct (escape_char_cases c1) as [[_ R] | [[_ R] | [[_ R] | [[_ R] | [[_ R] | [_ R]]]]]];
      rewrite R in E; discriminate E.
  - cbn [html_escape] in E.
    destruct (escape_char_cases c1)
      as [[P1 R1] | [[P1 R1] | [[P1 R1] | [[P1 R1] | [[P1 R1] | [P1 R1]]]]]];
    destruct (escape_char_cases c2)
      as [[P2 R2] | [[P2 R2] | [[P2 R2] | [[P2 R2] | [[P2 R2] | [P2 R2]]]]]];
    rewrite R1, R2 in E; cbn [append] in E;
    try (subst c1; subst c2; injection E as E; f_equal; now apply IH);
    try (subst c1; discriminate E);
    try (subst c2; injection E as E0 E; subst; discriminate P1);
    try (subst c1; injection E as E0 E; subst; discriminate P2).
    + injection E as -> E. f_equal. now apply IH.
Qed.

Lemma html_escape_plain s : no_special s = true -> html_escape s = s.
Proof.
  induction s as [|c s IH]; simpl; [reflexivity|].
  intros H. apply andb_true_iff in H. destruct H as [Hc Hs].
  apply negb_true_iff in Hc.
  destruct (escape_char_cases c)
    as [[_ R] | [[-> _] | [[-> _] | [[-> _] | [[-> _] | [-> _]]]]]];
    try discriminate Hc.
  rewrite R. simpl. now rewrite IH.
Qed.

(** X16: escaping loses nothing and does no more than needed: two different
    texts never have the same escaped form, and a text with none of [&],
    [<], [>] and the two quotes is left as it is. *)
Theorem html_escape_faithful :
  (forall s1 s2, html_escape s1 = html_escape s2 -> s1 = s2)
  /\ (forall s, no_special s = true -> html_escape s = s).
Proof.
  split.
  - intros s1 s2. apply html_escape_inj.
  - apply html_escape_plain.
Qed.

(** ** [str.replace] and the tokens of the template *)

Lemma replace_absent old new s :
  Str.contains s old = false -> Str.replace s old new = s.
Proof.
  unfold Str.replace. induction s as [|c s IH]; [reflexivity|].
  cbn [Str.contains Str.replace_from].
  destruct (Str.startswith (String c s) old); [discriminate|].
  intros H. now rewrite (IH H).
Qed.

Lemma replace_from_app_absent c old new a b :
  occurs c a = false ->
  Str.replace_from (String c old) new (a ++ b) 0
  = a ++ Str.replace_from (String c old) new b 0.
Proof.
  induction a as [|x a IH]; intros O; [reflexivity|].
  cbn [occurs] in O. apply orb_false_iff in O. destruct O as [Ox O].
  cbn [append Str.replace_from Str.startswith]. rewrite Ox. cbn [andb].
  now rewrite (IH O).
Qed.

Lemma replace_from_skip old new x :
  forall b,
    Str.replace_from old new (x ++ b) (String.length x)
    = Str.replace_from old new b 0.
Proof.
  induction x as [|c x IH]; intros b.
  - destruct b; reflexivity.
  - cbn [append String.length Str.replace_from]. apply IH.
Qed.

Lemma startswith_app p b : Str.startswith (p ++ b) p = true.
Proof.
  induction p as [|c p IH]; [now destruct b|].
  cbn [append Str.startswith]. now rewrite Ascii.eqb_refl, IH.
Qed.

Lemma replace_from_match c old new b :
  Str.replace_from (String c old) new (String c old ++ b) 0
  = new ++ Str.replace_from (String c old) new b 0.
Proof.
  cbn [append Str.replace_from].
  change (String c (old ++ b)) with (String c old ++ b).
  rewrite startswith_app.
  replace (String.length (String c old) - 1)%nat with (String.length old)
    by (cbn [String.length]; lia).
  now rewrite replace_from_skip.
Qed.

Lemma replace_from_end c old new d :
  occurs c d = false -> Str.replace_from (String c old) new d 0 = d.
Proof.
  intros O. rewrite <- (append_nil_r d) at 1.
  rewrite (replace_from_app_absent c old new d "" O). apply append_nil_r.
Qed.

(** X17: a template that holds none of the three tokens is returned as it
    is, whatever the date and the records: the substitution does not fail,
    it silently does nothing. *)
Theorem render_without_tokens :
  forall (tpl : string) (now : datetime) (D : date) (items : list Rec),
    Str.contains tpl "{{date}}" = false ->
    Str.contains tpl "{{news_list}}" = false ->
    Str.contains tpl "{{generated_at}}" = false ->
    render_news_html tpl now D items = tpl.
Proof.
  intros tpl now D items H1 H2 H3. unfold render_news_html.
  now rewrite (replace_absent _ _ _ H1), (replace_absent _ _ _ H2),
    (replace_absent _ _ _ H3).
Qed.

Lemma render_without_tokens_witness :
  render_news_html "<html><body>no news today</body></html>" sample_datetime
    (Date 2024 3 14) [script_rec]
  = "<html><body>no news today</body></html>".
Proof. apply render_without_tokens; reflexivity. Defined.

Lemma date_char_no_brace c : date_char c = true -> Ascii.eqb "{" c = false.
Proof.
  destruct c as [[] [] [] [] [] [] [] []]; intros H; vm_compute in H;
    try discriminate H; reflexivity.
Qed.

Lemma all_date_chars_brace_free s :
  all_date_chars s = true -> brace_free s.
Proof.
  unfold brace_free. induction s as [|c s IH]; [reflexivity|].
  cbn [all_date_chars occurs]. intros H.
  apply andb_true_iff in H. destruct H as [Hc Hs].
  now rewrite (date_char_no_brace c Hc), (IH Hs).
Qed.

Lemma date_isoformat_brace_free D : brace_free (date_isoformat D).
Proof.
  apply all_date_chars_brace_free. now destruct (date_isoformat_shape D).
Qed.

(** X18: on a template with the three tokens in the order date, list, time
    and no other opening brace, and with a list of blocks that has no
    opening brace either, the page is the template with the date as
    [YYYY-MM-DD], the list of blocks and the time of generation as
    [YYYY-MM-DD HH:MM:SS] in the places of the tokens, the fixed text
    between them unchanged; for no records the list is the paragraph
    "nothing found". *)
Theorem render_substitutes_tokens :
  forall (a b c d : string) (now : datetime) (D : date) (items : list Rec),
    brace_free a -> brace_free b -> brace_free c -> brace_free d ->
    brace_free (news_body items) ->
    render_news_html (template_of a b c d) now D items
    = a ++ date_isoformat D ++ b ++ news_body items ++ c
      ++ isoformat_seconds " " now ++ d
    /\ render_news_html (template_of a b c d) now D []
       = a ++ date_isoformat D ++ b ++ nothing_found ++ c
         ++ isoformat_seconds " " now ++ d.
Proof.
  intros a b c d now D items Ha Hb Hc Hd Hbody.
  assert (G : forall body, brace_free body ->
    Str.replace
      (Str.replace (Str.replace (template_of a b c d) "{{date}}"
                      (date_isoformat D))
         "{{news_list}}" body)
      "{{generated_at}}" (isoformat_seconds " " now)
    = a ++ date_isoformat D ++ b ++ body ++ c
      ++ isoformat_seconds " " now ++ d).
  { intros body Hbd. unfold Str.replace, template_of.
    pose proof (date_isoformat_brace_free D) as HD.
    (* the date *)
    rewrite (replace_from_app_absent "{" _ _ a _ Ha).
    rewrite (replace_from_match "{" "{date}}").
    rewrite (replace_from_app_absent "{" _ _ b _ Hb).
    change (Str.replace_from "{{date}}" (date_isoformat D)
              ("{{news_list}}" ++ c ++ "{{generated_at}}" ++ d) 0)
      with ("{{news_list}}"
            ++ Str.replace_from "{{date}}" (date_isoformat D)
                 (c ++ "{{generated_at}}" ++ d) 0).
    rewrite (replace_from_app_absent "{" _ _ c _ Hc).
    change (Str.replace_from "{{date}}" (date_isoformat D)
              ("{{generated_at}}" ++ d) 0)
      with ("{{generated_at}}"
            ++ Str.replace_from "{{date}}" (date_isoformat D) d 0).
    rewrite (replace_from_end "{" _ _ d Hd).
    (* the list *)
    rewrite (replace_from_app_absent "{" _ _ a _ Ha).
    rewrite (replace_from_app_absent "{" _ _ (date_isoformat D) _ HD).
    rewrite (replace_from_app_absent "{" _ _ b _ Hb).
    rewrite (replace_from_match "{" "{news_list}}").
    rewrite (replace_from_app_absent "{" _ _ c _ Hc).
    change (Str.replace_from "{{news_list}}" body ("{{generated_at}}" ++ d) 0)
      with ("{{generated_at}}" ++ Str.replace_from "{{news_list}}" body d 0).
    rewrite (replace_from_end "{" _ _ d Hd).
    (* the time *)
    rewrite (replace_from_app_absent "{" _ _ a _ Ha).
    rewrite (replace_from_app_absent "{" _ _ (date_isoformat D) _ HD).
    rewrite (replace_from_app_absent "{" _ _ b _ Hb).
    rewrite (replace_from_app_absent "{" _ _ body _ Hbd).
    rewrite (replace_from_app_absent "{" _ _ c _ Hc).
    rewrite (replace_from_match "{" "{generated_at}}").
    now rewrite (replace_from_end "{" _ _ d Hd). }
  split.
  - apply (G (news_body items) Hbody).
  - apply (G nothing_found). reflexivity.
Qed.

Lemma render_substitutes_tokens_witness :
  render_news_html (template_of "<h1>" "</h1>" "<i>" "</i>")
    (clock_render sample_env) (Date 2024 3 14) [script_rec]
  = "<h1>" ++ "2024-03-14" ++ "</h1>" ++ news_body [script_rec] ++ "<i>"
    ++ "2024-03-14 18:31:00" ++ "</i>".
Proof.
  refine (proj1 (render_substitutes_tokens "<h1>" "</h1>" "<i>" "</i>"
                   (clock_render sample_env) (Date 2024 3 14) [script_rec]
                   _ _ _ _ _)); reflexivity.
Defined.

(** ** Where an opening brace on the page can come from *)

Lemma digit_no_brace c v :
  Iso.digit_val c = Some v -> Ascii.eqb "{" c = false.
Proof.
  destruct c as [[] [] [] [] [] [] [] []]; intros H; vm_compute in H;
    try discriminate H; reflexivity.
Qed.

Lemma pad2_brace_free n : brace_free (Fmt.pad2 n).
Proof.
  unfold brace_free, Fmt.pad2. cbn [occurs].
  now rewrite (digit_no_brace _ _ (digit_val_digit (n / 10))),
    (digit_no_brace _ _ (digit_val_digit n)).
Qed.

Lemma year_text_brace_free y : brace_free (Fmt.year_text y).
Proof.
  pose proof (digit_no_brace _ _ (digit_val_digit y)) as D0.
  pose proof (digit_no_brace _ _ (digit_val_digit (y / 100))) as D2.
  pose proof (pad2_brace_free y) as P2.
  pose proof (pad2_brace_free (y / 100)) as P4.
  unfold brace_free in *. unfold Fmt.year_text.
  destruct (y <? 10)%Z; [cbn [occurs]; now rewrite D0|].
  destruct (y <? 100)%Z; [exact P2|].
  destruct (y <? 1000)%Z; [cbn [occurs]; now rewrite D2, P2|].
  unfold Fmt.pad4. now rewrite occurs_app, P4, P2.
Qed.

Lemma strftime_brace_free dt : brace_free (strftime_ymd_hm dt).
Proof.
  pose proof (year_text_brace_free (dt_year dt)) as Y.
  pose proof (pad2_brace_free (dt_month dt)) as Mo.
  pose proof (pad2_brace_free (dt_day dt)) as Da.
  pose proof (pad2_brace_free (dt_hour dt)) as Ho.
  pose proof (pad2_brace_free (dt_minute dt)) as Mi.
  unfold brace_free in *. unfold strftime_ymd_hm.
  rewrite !occurs_app, Y, Mo, Da, Ho, Mi. reflexivity.
Qed.

Lemma escape_char_brace c : occurs "{" (escape_char c) = Ascii.eqb "{" c.
Proof.
  destruct c as [[] [] [] [] [] [] [] []]; reflexivity.
Qed.

Lemma html_escape_brace_free s : brace_free s -> brace_free (html_escape s).
Proof.
  unfold brace_free. induction s as [|c s IH]; [reflexivity|].
  cbn [occurs html_escape]. intros H.
  apply orb_false_iff in H. destruct H as [Hc Hs].
  now rewrite occurs_app, escape_char_brace, Hc, (IH Hs).
Qed.

Lemma display_timestamp_brace_free q :
  brace_free (text_or_empty (q_pubdate_iso q)) ->
  brace_free (q_pubdate_raw q) ->
  brace_free (display_timestamp q).
Proof.
  intros Hi Hr. unfold display_timestamp, display_timestamp_with.
  destruct (opt_truthy (q_pubdate_iso q)).
  - destruct (Iso.fromisoformat _); [apply strftime_brace_free | exact Hi].
  - destruct (Str.truthy (q_pubdate_raw q)); [exact Hr | reflexivity].
Qed.

Lemma news_block_brace_free q : rec_brace_free q -> brace_free (news_block q).
Proof.
  intros [Ht [Hl [Hc [Hi Hr]]]].
  pose proof (html_escape_brace_free _ Ht) as Et.
  pose proof (html_escape_brace_free _ Hl) as El.
  pose proof (html_escape_brace_free _ Hc) as Ec.
  pose proof (display_timestamp_brace_free q Hi Hr) as Ed.
  unfold brace_free in *. unfold news_block. cbv zeta.
  rewrite !occurs_app, Et, El, Ec, Ed. reflexivity.
Qed.

Lemma join_brace_free sep parts :
  brace_free sep -> Forall brace_free parts -> brace_free (Str.join sep parts).
Proof.
  intros Hs. induction 1 as [|p parts Hp F IH]; [reflexivity|].
  destruct parts as [|p' parts]; [exact Hp|].
  unfold brace_free in *.
  change (Str.join sep (p :: p' :: parts))
    with (p ++ sep ++ Str.join sep (p' :: parts)).
  now rewrite !occurs_app, Hp, Hs, IH.
Qed.

(** X19: the renderer brings no opening brace of its own into the list of
    blocks: when no title, link, category, ISO date or raw date of the
    records holds one, the list holds none, so no placeholder token can
    appear in it and be replaced afterwards. *)
Theorem news_body_brace_free :
  forall items : list Rec,
    Forall rec_brace_free items -> brace_free (news_body items).
Proof.
  intros items F. unfold news_body.
  destruct items as [|q items]; [reflexivity|].
  apply join_brace_free; [reflexivity|].
  apply Forall_forall. intros s Hs.
  apply in_map_iff in Hs. destruct Hs as [r [<- Hr]].
  apply news_block_brace_free. rewrite Forall_forall in F. now apply F.
Qed.

Lemma news_body_brace_free_witness : brace_free (news_body [script_rec]).
Proof.
  apply news_body_brace_free. repeat constructor.
Defined.

(** ** Tags and the walk over the tree *)

(** X20: on ASCII text a tag matches a name whatever the letter case of
    either and whatever stands before the local name: when the local part
    and the name are equal up to case, the tag matches under every prefix.
    The empty name is matched by every tag, and a name longer than the tag
    by none. *)
Theorem tag_endswith_tolerant :
  forall (prefix local name : string),
    is_ascii prefix = true -> is_ascii local = true -> is_ascii name = true ->
    Str.lower local = Str.lower name ->
    _tag_endswith (prefix ++ local) name = true
    /\ (forall t, _tag_endswith t "" = true)
    /\ (forall t n, is_ascii t = true -> is_ascii n = true ->
                    _tag_endswith t n = true ->
                    (String.length n <= String.length t)%nat).
Proof.
  intros prefix local name _ _ _ E. split; [|split].
  - unfold _tag_endswith. apply endswith_spec.
    exists (Str.lower prefix). now rewrite lower_app, E.
  - intros t. unfold _tag_endswith. apply endswith_spec.
    exists (Str.lower t). simpl. now rewrite append_nil_r.
  - intros t n _ _ H. unfold _tag_endswith in H. apply endswith_spec in H.
    destruct H as [p H].
    assert (L : forall s, String.length (Str.lower s) = String.length s)
      by (induction s as [|x s IH]; simpl; [reflexivity | now rewrite IH]).
    rewrite <- (L t), <- (L n), H, string_length_app. lia.
Qed.

Lemma tag_endswith_tolerant_witness :
  _tag_endswith "{http://purl.org/rss/1.0/}PubDate" "pubdate" = true.
Proof.
  exact (proj1 (tag_endswith_tolerant "{http://purl.org/rss/1.0/}" "PubDate"
                  "pubdate" eq_refl eq_refl eq_refl eq_refl)).
Defined.

Lemma items_of_children `{PyLib} (cs : list Element) :
  map item_of_element
    (filter (fun e => _tag_endswith (tag e) "item") (flat_map iter cs))
  = flat_map parse_root cs.
Proof.
  induction cs as [|child cs IH]; [reflexivity|].
  cbn [flat_map]. rewrite filter_app, map_app, IH.
  now rewrite <- parse_root_filter.
Qed.

(** X21: the parser walks the whole tree: the items of an element are the
    element itself, when its tag matches, followed by the items of its
    children in order.  So a matching element is searched for items inside
    it as well, and an item nested in an item gives two items. *)
Theorem parse_root_walks_tree :
  forall (lib : PyLib) (t : string) (x : option string) (cs : list Element),
    parse_root (Elem t x cs)
    = ((if _tag_endswith t "item" then [item_of_element (Elem t x cs)] else [])
       ++ flat_map parse_root cs)%list.
Proof.
  intros lib t x cs. rewrite parse_root_filter.
  cbn [iter filter tag].
  pose proof (items_of_children cs) as E.
  destruct (_tag_endswith t "item"); cbn [map app]; now rewrite E.
Qed.

Example parse_nested_feed :
  map title (@parse_root sample_lib nested_feed) = ["outer"; "inner"].
Proof. reflexivity. Qed.

(** ** Batches *)

Lemma save_loop_acc clock items :
  forall k t added,
    save_loop clock k items t added
    = (fst (save_loop clock k items t []),
       (added ++ snd (save_loop clock k items t []))%list).
Proof.
  induction items as [|it items IH]; intros k t added; simpl.
  - now rewrite app_nil_r.
  - destruct (sql_insert t it _) as [t'|].
    + rewrite (IH (S k) t' (added ++ [it])%list), (IH (S k) t' [it]).
      simpl. now rewrite <- app_assoc.
    + apply IH.
Qed.

Lemma save_loop_shift clock items :
  forall n k t added,
    save_loop clock (n + k) items t added
    = save_loop (clock_from n clock) k items t added.
Proof.
  induction items as [|it items IH]; intros n k t added; simpl; [reflexivity|].
  unfold clock_from at 1 2.
  destruct (sql_insert t it _) as [t'|];
    rewrite <- (IH n (S k)); now rewrite Nat.add_succ_r.
Qed.

Lemma save_loop_app clock items1 items2 :
  forall k t added,
    save_loop clock k (items1 ++ items2) t added
    = save_loop clock (List.length items1 + k) items2
        (fst (save_loop clock k items1 t added))
        (snd (save_loop clock k items1 t added)).
Proof.
  induction items1 as [|it items1 IH]; intros k t added; simpl; [reflexivity|].
  destruct (sql_insert t it _) as [t'|]; rewrite IH;
    now rewrite Nat.add_succ_r.
Qed.

(** X22: saving a batch in one call or in two calls, the second reading the
    clock where the first stopped, gives the same table and the same
    returned items. *)
Theorem save_new_to_db_in_two_calls :
  forall (clock : nat -> datetime) (items1 items2 : list Item) (t : Table),
    let r1 := save_new_to_db clock items1 t in
    let r2 :=
      save_new_to_db (clock_from (List.length items1) clock) items2 (fst r1) in
    save_new_to_db clock (items1 ++ items2) t
    = (fst r2, (snd r1 ++ snd r2)%list).
Proof.
  intros clock items1 items2 t. cbv zeta. unfold save_new_to_db.
  rewrite save_loop_app, save_loop_acc.
  now rewrite <- (save_loop_shift clock items2 (List.length items1) 0).
Qed.

Lemma save_loop_new_items clock items :
  forall k t,
    snd (save_loop clock k items t []) = new_items (links t) items
    /\ links (fst (save_loop clock k items t []))
       = (links t ++ map link (new_items (links t) items))%list.
Proof.
  induction items as [|it items IH]; intros k t; simpl.
  - now rewrite app_nil_r.
  - unfold sql_insert.
    assert (M : Str.mem (link it) (links t) = has_link t (link it)).
    { destruct (has_link t (link it)) eqn:E.
      - apply mem_In. now apply has_link_In.
      - apply has_link_false in E.
        destruct (Str.mem (link it) (links t)) eqn:M'; [|reflexivity].
        apply mem_In in M'. contradiction. }
    rewrite M. destruct (has_link t (link it)).
    + apply IH.
    + rewrite save_loop_acc. cbn [fst snd app].
      match goal with
      | |- context [save_loop clock (S k) items ?tab []] =>
          destruct (IH (S k) tab) as [A B]; rewrite A, B
      end.
      rewrite links_snoc. cbn [r_link map].
      split; [reflexivity | now rewrite <- app_assoc].
Qed.

(** X23: what [save_new_to_db] returns does not depend on the clock or on
    any column other than [link]: it is the items of the batch whose link
    is not stored yet, each link at its first occurrence, in batch order;
    and the links stored afterwards are the old ones followed by theirs. *)
Theorem save_new_to_db_returns_new_items :
  forall (clock : nat -> datetime) (items : list Item) (t : Table),
    snd (save_new_to_db clock items t) = new_items (links t) items
    /\ links (fst (save_new_to_db clock items t))
       = (links t ++ map link (new_items (links t) items))%list.
Proof.
  intros clock items t. unfold save_new_to_db. apply save_loop_new_items.
Qed.

(** ** From the feed to the page *)

Lemma kept_links_distinct (keep : Item -> bool) (items : list Item) :
  NoDup (map link items) -> NoDup (map link (filter keep items)).
Proof.
  intros N. induction items as [|it items IH]; [constructor|].
  cbn [map] in N. apply NoDup_cons_iff in N. destruct N as [Nit N].
  cbn [filter]. destruct (keep it); [|now apply IH].
  cbn [map]. constructor; [|now apply IH].
  intros Hin. apply Nit. apply in_map_iff in Hin.
  destruct Hin as [other [E Hother]]. apply filter_In in Hother.
  rewrite <- E. apply in_map. tauto.
Qed.

(** X24: a feed entry dated today reaches today's page: in a run on a feed
    whose entries have distinct links, every parsed item whose publish date
    parsed to today's date and whose link was not stored before is, after
    the run, among the records that [query_db_for_date] returns for today,
    with its own title, link, category, ISO date and raw date. *)
Theorem main_lists_new_dated_item :
  forall (lib : PyLib) (env : Env) (w : World) (xml : string)
         (root : Element) (it : Item) (dt : datetime),
    template w <> None ->
    rss_response env = Some xml ->
    ET_fromstring xml = Some root ->
    NoDup (map link (parse_root root)) ->
    In it (parse_root root) ->
    pubdate_dt it = Some dt ->
    dt_date dt = dt_date (clock_today env) ->
    ~ In (link it) (links (table_of w)) ->
    In (MkRec (title it) (link it) (category it) (Some (isoformat dt))
              (pubdate_raw it))
       (query_db_for_date (dt_date (clock_today env))
          (table_of (fst (main env w)))).
Proof.
  intros lib env w xml root it dt T R P N Hit Hdt Hday Hnew.
  rewrite main_unfold, R. unfold parse_rss. rewrite P.
  destruct (template w) as [tpl|]; [|contradiction]. cbv zeta.
  unfold table_of at 1. cbn [fst db init_db].
  set (today := dt_date (clock_today env)) in *.
  set (todays := filter_news (parse_root root) (Some today) None).
  assert (Hin : In it todays).
  { unfold todays. rewrite filter_news_filter. apply filter_In.
    split; [assumption|]. apply filter_ok_date. right. now exists dt. }
  assert (Nt : NoDup (map link todays)).
  { unfold todays. rewrite filter_news_filter. now apply kept_links_distinct. }
  destruct (in_split _ _ Hin) as [pre [post Esplit]].
  assert (Hpre : forall x, In x pre -> link x <> link it).
  { intros x Hx E. rewrite Esplit, map_app in Nt. simpl in Nt.
    apply NoDup_remove_2 in Nt. apply Nt. apply in_or_app. left.
    rewrite <- E. now apply in_map. }
  assert (Hadded : In it (snd (save_new_to_db (clock_insert env) todays
                                 (init_db (db w))))).
  { unfold save_new_to_db. rewrite Esplit.
    destruct (save_loop_first_wins (clock_insert env) pre it post 0
                (init_db (db w)) [] Hnew Hpre) as [id [_ H]].
    exact H. }
  apply saved_item_in_query; [exact Hadded | |].
  - rewrite parse_root_filter in Hit. apply in_map_iff in Hit.
    destruct Hit as [e [<- _]]. now apply item_dates_linked.
  - rewrite isoformat_prefix. now rewrite Hday.
Qed.

Lemma main_lists_new_dated_item_witness :
  In (MkRec "First" "http://example.org/1" "news"
            (Some "2024-03-14T10:05:00+02:00") sample_pubdate)
     (query_db_for_date (Date 2024 3 14)
        (table_of (fst (@main sample_lib sample_env sample_world)))).
Proof.
  refine (main_lists_new_dated_item sample_lib sample_env sample_world
            sample_feed_text sample_feed
            (MkItem "First" "http://example.org/1" "news" sample_pubdate
               (Some "2024-03-14T10:05:00+02:00") (Some sample_datetime))
            sample_datetime _ eq_refl eq_refl _ _ eq_refl eq_refl _).
  - discriminate.
  - vm_compute. repeat constructor; simpl; intuition discriminate.
  - vm_compute. now left.
  - intros [].
Defined.
